(** * Shallow embedding of the planet-event sync clients

    The repository holds several near-duplicate variants of one React
    client.  Each variant is embedded in its own module, named after the
    version tag in its bucket or storage keys:
    - [V9]   : src/App.tsx, first component (admin-gated, wall-clock version);
    - [V6]   : src/App.tsx, second component (addLog, lastUpdate timestamps);
    - [V13]  : src/App.tsx, third component (broadcast with local cache);
    - [V11]  : src/types.ts, first component (broadcast/pull, createLog);
    - [V19]  : src/types.ts, second component (counter version, pendingPush);
    - [P004] : src/unnamed/part_004 (counter version, hasPendingChanges);
    - [Login]: src/components/NicknameModal.tsx.

    React state setters are modelled as immediate updates of a state
    record, refs ([useRef]) as fields of the same record, [localStorage]
    as a field holding the cached snapshot, the remote document as a field
    holding the last accepted PUT body, and [navigator.onLine] as a
    boolean field.  [Date.now()] and [Math.random()] ids are explicit
    inputs.  An async operation is split at its single [await fetch] into
    an [_enter] part (the synchronous prefix, which issues the request) and
    a [_settle] part (run when the response arrives). *)

From Stdlib Require Import String Ascii ZArith List Bool Lia.
Import ListNotations.

Local Open Scope string_scope.
Local Open Scope Z_scope.
Local Open Scope list_scope.

(** ** Data model (src/types.ts, lines 1-36) *)

Inductive TaskStatus := Pending | InProgress | Completed | Cancelled.

Definition TaskStatus_eqb (a b : TaskStatus) : bool :=
  match a, b with
  | Pending, Pending | InProgress, InProgress
  | Completed, Completed | Cancelled, Cancelled => true
  | _, _ => false
  end.

(** The string value of each status literal. *)
Definition TaskStatus_str (s : TaskStatus) : string :=
  match s with
  | Pending => "Pending"
  | InProgress => "In Progress"
  | Completed => "Completed"
  | Cancelled => "Cancelled"
  end.

Record Task := mkTask {
  id : string;
  category : string;
  title : string;
  status : TaskStatus;
  notes : string;
  deadline : option string;   (* string | null *)
  assignee : option string;   (* string | null *)
  updatedAt : Z
}.

Record ActivityLog := mkLog {
  log_id : string;
  taskId : string;
  taskTitle : string;
  nickname : string;
  action : string;
  timestamp : Z
}.

Record User := mkUser { u_nickname : string; isAdmin : bool }.

Record ProjectData := mkProjectData {
  pd_tasks : list Task;
  pd_categories : list string;
  pd_logs : list ActivityLog;
  version : Z;
  lastUpdatedBy : string;
  pd_timestamp : Z
}.

(** [Partial<Task>] as passed by TaskCard / TaskListView: [None] is an
    absent key.  For the nullable fields, [Some None] is an explicit
    [null]. *)
Record TaskUpdate := mkUpdate {
  upd_category : option string;
  upd_title : option string;
  upd_status : option TaskStatus;
  upd_notes : option string;
  upd_deadline : option (option string);
  upd_assignee : option (option string)
}.

Definition no_update : TaskUpdate := mkUpdate None None None None None None.

Definition pick {A} (o : option A) (d : A) : A :=
  match o with Some x => x | None => d end.

(** [{ ...t, ...updates, updatedAt: Date.now() }] *)
Definition merge_update (t : Task) (u : TaskUpdate) (now : Z) : Task :=
  mkTask (id t) (pick (upd_category u) (category t)) (pick (upd_title u) (title t))
    (pick (upd_status u) (status t)) (pick (upd_notes u) (notes t))
    (pick (upd_deadline u) (deadline t)) (pick (upd_assignee u) (assignee t)) now.

(** [tasks.map(t => t.id === id ? { ...t, ...updates, updatedAt: Date.now() } : t)],
    shared by every variant's task-update handler. *)
Definition map_update (ts : list Task) (tid : string) (u : TaskUpdate) (now : Z)
  : list Task :=
  map (fun t => if String.eqb (id t) tid then merge_update t u now else t) ts.

(** [tasks.find(t => t.id === id)] *)
Definition find_task (ts : list Task) (tid : string) : option Task :=
  find (fun t => String.eqb (id t) tid) ts.

(** [tasks.filter(t => t.id !== id)] *)
Definition remove_task (ts : list Task) (tid : string) : list Task :=
  filter (fun t => negb (String.eqb (id t) tid)) ts.

(** [list.includes(x)] on strings. *)
Definition includes (l : list string) (x : string) : bool :=
  existsb (String.eqb x) l.

(** [arr.slice(0, 50)] *)
Definition slice50 {A} (l : list A) : list A := firstn 50 l.

(** ** Remote Document Store responses

    A [fetch] either rejects ([NetworkError], which also covers the
    AbortController timeout) or resolves with a status code and a body.
    The body is empty (or whitespace only), a JSON snapshot, or text that
    does not parse. *)
Inductive Body := BEmpty | BJson (d : ProjectData) | BMalformed.

Inductive Response := NetworkError | HttpResponse (code : Z) (body : Body).

(** [response.ok]: status in the range 200-299. *)
Definition code_ok (code : Z) : bool := (200 <=? code) && (code <? 300).

Definition resp_ok (r : Response) : bool :=
  match r with HttpResponse c _ => code_ok c | NetworkError => false end.

(** The payload of TaskFormModal's onSubmit (TaskFormModal.tsx, line 8). *)
Record FormData := mkForm {
  fd_title : string;
  fd_category : string;
  fd_deadline : option string;
  fd_notes : string;
  fd_assignee : option string
}.

(** Spreading the form data over a task ([{ ...t, ...data }]) sets these
    five fields. *)
Definition form_as_update (d : FormData) : TaskUpdate :=
  mkUpdate (Some (fd_category d)) (Some (fd_title d)) None (Some (fd_notes d))
    (Some (fd_deadline d)) (Some (fd_assignee d)).

(** [{ id, ...data, status: 'Pending', updatedAt: Date.now() }] *)
Definition new_task (rid : string) (d : FormData) (now : Z) : Task :=
  mkTask rid (fd_category d) (fd_title d) Pending (fd_notes d) (fd_deadline d)
    (fd_assignee d) now.

(** [if (!cats.includes(data.category)) cats.push(data.category)] *)
Definition add_category (cats : list string) (c : string) : list string :=
  if includes cats c then cats else (cats ++ [c])%list.

(** What the synchronous prefix of an async operation sent, if anything. *)
Inductive Request := ReqNone | ReqGet | ReqPut (p : ProjectData).

(** [s || d] on a string: the empty string is falsy. *)
Definition or_default (s : string) (d : string) : string :=
  if String.eqb s "" then d else s.

(** ** Variant V19: src/types.ts, second component (lines 364-719) *)
Module V19.

Inductive SyncState := Online | Syncing | LocalOnly | Error.

Record State := mkState {
  tasks : list Task;
  categories : list string;
  logs : list ActivityLog;
  versionView : Z;               (* useState [version] *)
  currentV : Z;                  (* useRef [currentV] *)
  isSyncing : bool;              (* useRef [isSyncing] *)
  pendingPush : bool;            (* useRef [pendingPush] *)
  syncState : SyncState;
  lastSync : Z;
  cache : option ProjectData;    (* localStorage[STORAGE_KEYS.DATA] *)
  online : bool;                 (* navigator.onLine *)
  user : option string;          (* user?.nickname *)
  remote : option ProjectData    (* the document at SYNC_ENDPOINT *)
}.

Definition set_syncState (s : State) (v : SyncState) : State :=
  mkState (tasks s) (categories s) (logs s) (versionView s) (currentV s)
    (isSyncing s) (pendingPush s) v (lastSync s) (cache s) (online s) (user s) (remote s).

Definition set_isSyncing (s : State) (b : bool) : State :=
  mkState (tasks s) (categories s) (logs s) (versionView s) (currentV s)
    b (pendingPush s) (syncState s) (lastSync s) (cache s) (online s) (user s) (remote s).

Definition set_pendingPush (s : State) (b : bool) : State :=
  mkState (tasks s) (categories s) (logs s) (versionView s) (currentV s)
    (isSyncing s) b (syncState s) (lastSync s) (cache s) (online s) (user s) (remote s).

(** [setTasks(t); setCategories(c); setLogs(l)] *)
Definition set_data (s : State) (t : list Task) (c : list string) (l : list ActivityLog)
  : State :=
  mkState t c l (versionView s) (currentV s)
    (isSyncing s) (pendingPush s) (syncState s) (lastSync s) (cache s) (online s)
    (user s) (remote s).

(** pushToCloud (lines 457-506), synchronous prefix up to [await fetch]. *)
Definition pushToCloud_enter (s : State)
    (customData : option (list Task * list string * list ActivityLog)) (now : Z)
  : State * option ProjectData :=
  if isSyncing s || negb (online s) then
    let s1 := set_pendingPush s true in
    ((if negb (online s) then set_syncState s1 LocalOnly else s1), None)
  else
    let s1 := set_syncState (set_isSyncing s true) Syncing in
    let nextV := currentV s + 1 in
    let '(t, c, l) := match customData with
                      | Some d => d
                      | None => (tasks s, categories s, logs s)
                      end in
    let payload := mkProjectData t c l nextV
                     (or_default (pick (user s) "") "System") now in
    (s1, Some payload).

(** pushToCloud, from the response of the PUT to the [finally] block. *)
Definition pushToCloud_settle (s : State) (payload : ProjectData) (now : Z)
    (resp : Response) : State :=
  let s' :=
    if resp_ok resp then
      mkState (tasks s) (categories s) (logs s) (version payload) (version payload)
        (isSyncing s) false Online now (Some payload) (online s) (user s)
        (Some payload)
    else set_pendingPush (set_syncState s LocalOnly) true in
  set_isSyncing s' false.

Definition pushToCloud (s : State)
    (customData : option (list Task * list string * list ActivityLog)) (now : Z)
    (resp : Response) : State :=
  match pushToCloud_enter s customData now with
  | (s1, None) => s1
  | (s1, Some p) => pushToCloud_settle s1 p now resp
  end.

(** fetchCloudData (lines 406-452), synchronous prefix.  Note that it
    reads [isSyncing] but does not set it. *)
Definition fetchCloudData_enter (s : State) (showLoading : bool) : option State :=
  if isSyncing s || negb (online s) then None
  else Some (if showLoading then set_syncState s Syncing else s).

(** Adopting a newer cloud snapshot (lines 435-442). *)
Definition adopt (s : State) (cloud : ProjectData) (now : Z) : State :=
  mkState (pd_tasks cloud) (pd_categories cloud) (pd_logs cloud) (version cloud)
    (version cloud) (isSyncing s) (pendingPush s) Online now (Some cloud)
    (online s) (user s) (remote s).

(** fetchCloudData after the GET resolves; [push_resp] answers the
    awaited initialising push of an empty bucket. *)
Definition fetchCloudData_settle (s : State) (showLoading : bool) (now : Z)
    (resp : Response) (push_resp : Response) : State :=
  let s' :=
    match resp with
    | NetworkError => set_syncState s LocalOnly
    | HttpResponse c b =>
        if negb (code_ok c) then set_syncState s LocalOnly
        else match b with
             | BEmpty => if showLoading then pushToCloud s None now push_resp else s
             | BMalformed => set_syncState s LocalOnly
             | BJson cloud =>
                 if currentV s <? version cloud then adopt s cloud now
                 else set_syncState s Online
             end
    end in
  set_isSyncing s' false.

Definition fetchCloudData (s : State) (showLoading : bool) (now : Z)
    (resp push_resp : Response) : State :=
  match fetchCloudData_enter s showLoading with
  | None => s
  | Some s1 => fetchCloudData_settle s1 showLoading now resp push_resp
  end.

(** handleDataChange (lines 554-560), the mutate entry point. *)
Definition handleDataChange_enter (s : State) (t : list Task) (c : list string)
    (l : list ActivityLog) (now : Z) : State * option ProjectData :=
  pushToCloud_enter (set_pendingPush (set_data s t c l) true) (Some (t, c, l)) now.

Definition handleDataChange (s : State) (t : list Task) (c : list string)
    (l : list ActivityLog) (now : Z) (resp : Response) : State :=
  pushToCloud (set_pendingPush (set_data s t c l) true) (Some (t, c, l)) now resp.

(** One tick of the 15 s syncPulse (lines 540-546): what it sends. *)
Definition syncPulse_enter (s : State) (now : Z) : State * Request :=
  if pendingPush s then
    match pushToCloud_enter s None now with
    | (s1, Some p) => (s1, ReqPut p)
    | (s1, None) => (s1, ReqNone)
    end
  else
    match fetchCloudData_enter s false with
    | Some s1 => (s1, ReqGet)
    | None => (s, ReqNone)
    end.

End V19.

(** ** Variant P004: src/unnamed/part_004 *)
Module P004.

Inductive SyncStatus := Online | Syncing | Offline | Error.

Record State := mkState {
  tasks : list Task;
  categories : list string;
  logs : list ActivityLog;
  syncStatus : SyncStatus;
  lastSync : Z;
  syncLock : bool;               (* useRef [syncLock] *)
  currentVersion : Z;            (* useRef [currentVersion] *)
  hasPendingChanges : bool;      (* useRef [hasPendingChanges] *)
  cache : option ProjectData;    (* localStorage[STORAGE_KEYS.LOCAL_CACHE] *)
  online : bool;                 (* navigator.onLine *)
  user : option string;          (* user?.nickname *)
  remote : option ProjectData    (* the document at getApiUrl() *)
}.

Definition set_syncStatus (s : State) (v : SyncStatus) : State :=
  mkState (tasks s) (categories s) (logs s) v (lastSync s) (syncLock s)
    (currentVersion s) (hasPendingChanges s) (cache s) (online s) (user s) (remote s).

Definition set_syncLock (s : State) (b : bool) : State :=
  mkState (tasks s) (categories s) (logs s) (syncStatus s) (lastSync s) b
    (currentVersion s) (hasPendingChanges s) (cache s) (online s) (user s) (remote s).

(** [setTasks; setCategories; setLogs; hasPendingChanges.current = true] *)
Definition set_pending_data (s : State) (t : list Task) (c : list string)
    (l : list ActivityLog) : State :=
  mkState t c l (syncStatus s) (lastSync s) (syncLock s)
    (currentVersion s) true (cache s) (online s) (user s) (remote s).

(** pushData (lines 58-94), synchronous prefix. *)
Definition pushData_enter (s : State)
    (forcedData : option (list Task * list string * list ActivityLog)) (now : Z)
  : State * option ProjectData :=
  if syncLock s || negb (online s) then (s, None)
  else
    let s1 := set_syncStatus (set_syncLock s true) Syncing in
    let nextVersion := currentVersion s + 1 in
    let '(t, c, l) := match forcedData with
                      | Some d => d
                      | None => (tasks s, categories s, logs s)
                      end in
    (s1, Some (mkProjectData t c (slice50 l) nextVersion
                 (or_default (pick (user s) "") "Owner") now)).

Definition pushData_settle (s : State) (payload : ProjectData) (now : Z)
    (resp : Response) : State :=
  let s' :=
    if resp_ok resp then
      mkState (tasks s) (categories s) (logs s) Online now (syncLock s)
        (version payload) false (Some payload) (online s) (user s) (Some payload)
    else set_syncStatus s Error in
  set_syncLock s' false.

Definition pushData (s : State)
    (forcedData : option (list Task * list string * list ActivityLog)) (now : Z)
    (resp : Response) : State :=
  match pushData_enter s forcedData now with
  | (s1, None) => s1
  | (s1, Some p) => pushData_settle s1 p now resp
  end.

(** pullData (lines 97-122), synchronous prefix. *)
Definition pullData_enter (s : State) (silent : bool) : option State :=
  if syncLock s || negb (online s) || hasPendingChanges s then None
  else Some (if negb silent then set_syncStatus s Syncing else s).

(** [catch (error) { if (!silent) setSyncStatus('error'); }] *)
Definition pull_catch (s : State) (silent : bool) : State :=
  if negb silent then set_syncStatus s Error else s.

Definition pullData_settle (s : State) (silent : bool) (now : Z)
    (resp push_resp : Response) : State :=
  match resp with
  | NetworkError => pull_catch s silent
  | HttpResponse code b =>
      if code =? 404 then (if negb silent then pushData s None now push_resp else s)
      else if negb (code_ok code) then pull_catch s silent
      else match b with
           | BJson remoteData =>
               let s1 :=
                 if currentVersion s <? version remoteData then
                   mkState (pd_tasks remoteData) (pd_categories remoteData)
                     (pd_logs remoteData) (syncStatus s) now (syncLock s)
                     (version remoteData) (hasPendingChanges s) (Some remoteData)
                     (online s) (user s) (remote s)
                 else s in
               set_syncStatus s1 Online
           (* response.json() rejects on an empty or malformed body *)
           | BEmpty | BMalformed => pull_catch s silent
           end
  end.

Definition pullData (s : State) (silent : bool) (now : Z) (resp push_resp : Response)
  : State :=
  match pullData_enter s silent with
  | None => s
  | Some s1 => pullData_settle s1 silent now resp push_resp
  end.

(** handleApplyChange (lines 142-148), synchronous part. *)
Definition handleApplyChange_enter (s : State) (t : list Task) (c : list string)
    (l : list ActivityLog) (now : Z) : State * option ProjectData :=
  pushData_enter (set_pending_data s t c l) (Some (t, c, l)) now.

(** onUpdateTask (lines 150-162); [rid] is the Math.random id. *)
Definition onUpdateTask (s : State) (tid : string) (u : TaskUpdate) (now : Z)
    (rid : string) : State * option ProjectData :=
  let nextTasks := map_update (tasks s) tid u now in
  let task := find_task (tasks s) tid in
  let log := mkLog rid tid
               (or_default (match task with Some t => title t | None => "" end) "Unknown")
               (or_default (pick (user s) "") "Owner")
               (match upd_status u with
                | Some st => "changed status to " ++ TaskStatus_str st
                | None => "updated details"
                end)%string
               now in
  handleApplyChange_enter s nextTasks (categories s) (log :: logs s) now.

End P004.

(** ** Variant V9: src/App.tsx, first component (lines 1-351), admin-gated *)
Module V9.

Inductive SyncStatus := Connected | Syncing | Error | Success.

Record State := mkState {
  user : option User;
  tasks : list Task;
  categories : list string;
  logs : list ActivityLog;
  syncStatus : SyncStatus;
  lastSync : Z;
  hasUnsavedChanges : bool;
  isLocked : bool;               (* useRef [isLockedRef] *)
  currentVersion : Z;            (* useRef [currentVersionRef] *)
  backup : option ProjectData;   (* localStorage[STORAGE_KEYS.LOCAL_BACKUP] *)
  online : bool;                 (* navigator.onLine *)
  remote : option ProjectData    (* the document at API_URL *)
}.

(** [user?.isAdmin] *)
Definition is_admin (s : State) : bool :=
  match user s with Some u => isAdmin u | None => false end.

Definition nick (s : State) : string :=
  match user s with Some u => u_nickname u | None => "" end.

Definition set_syncStatus (s : State) (v : SyncStatus) : State :=
  mkState (user s) (tasks s) (categories s) (logs s) v (lastSync s)
    (hasUnsavedChanges s) (isLocked s) (currentVersion s) (backup s) (online s) (remote s).

Definition set_isLocked (s : State) (b : bool) : State :=
  mkState (user s) (tasks s) (categories s) (logs s) (syncStatus s) (lastSync s)
    (hasUnsavedChanges s) b (currentVersion s) (backup s) (online s) (remote s).

Definition set_online (s : State) (b : bool) : State :=
  mkState (user s) (tasks s) (categories s) (logs s) (syncStatus s) (lastSync s)
    (hasUnsavedChanges s) (isLocked s) (currentVersion s) (backup s) b (remote s).

(** The load effect (lines 41-57) with the session and cache read from
    localStorage; [initial] stands for INITIAL_TASKS and DEFAULT_CATEGORIES
    (src/unnamed/part_003), used when there is no cache. *)
Definition boot (session : option User) (cache : option ProjectData)
    (initial : list Task * list string) (online : bool) (remote : option ProjectData)
  : State :=
  match cache with
  | Some d => mkState session (pd_tasks d) (pd_categories d) (pd_logs d) Connected 0
                false false (version d) cache online remote
  | None => mkState session (fst initial) (snd initial) [] Connected 0
              false false 0 None online remote
  end.

(** pushToCloud (lines 103-141), synchronous prefix. *)
Definition pushToCloud_enter (s : State) (now : Z) : State * option ProjectData :=
  if negb (is_admin s) || isLocked s then (s, None)
  else
    let nextVersion := now in
    (set_syncStatus (set_isLocked s true) Syncing,
     Some (mkProjectData (tasks s) (categories s) (slice50 (logs s)) nextVersion
             (nick s) now)).

Definition pushToCloud_settle (s : State) (payload : ProjectData) (now : Z)
    (resp : Response) : State :=
  let s' :=
    if resp_ok resp then
      mkState (user s) (tasks s) (categories s) (logs s) Success now false
        (isLocked s) (version payload) (Some payload) (online s) (Some payload)
    else set_syncStatus s Error (* and alert(...) *) in
  set_isLocked s' false.

Definition pushToCloud (s : State) (now : Z) (resp : Response) : State :=
  match pushToCloud_enter s now with
  | (s1, None) => s1
  | (s1, Some p) => pushToCloud_settle s1 p now resp
  end.

(** syncFromCloud (lines 60-100), synchronous prefix; it takes no lock. *)
Definition syncFromCloud_enter (s : State) (isSilent : bool) : option State :=
  if isLocked s || negb (online s) || (hasUnsavedChanges s && is_admin s) then None
  else Some (if negb isSilent then set_syncStatus s Syncing else s).

(** syncFromCloud after the GET resolves.  On a 404 it starts (without
    awaiting) pushToCloud, whose request is returned. *)
Definition syncFromCloud_settle (s : State) (now : Z) (resp : Response)
  : State * option ProjectData :=
  match resp with
  | NetworkError => (set_syncStatus s Error, None)
  | HttpResponse code b =>
      if code =? 404 then
        if is_admin s && (0 <? Z.of_nat (length (tasks s))) then
          let '(s1, p) := pushToCloud_enter s now in (set_syncStatus s1 Connected, p)
        else (set_syncStatus s Connected, None)
      else if negb (code_ok code) then (set_syncStatus s Error, None)
      else match b with
           | BJson r =>
               if currentVersion s <? version r then
                 (mkState (user s) (pd_tasks r) (pd_categories r) (pd_logs r) Success now
                    (hasUnsavedChanges s) (isLocked s) (version r) (Some r) (online s)
                    (remote s), None)
               else (set_syncStatus s Connected, None)
           | BEmpty | BMalformed => (set_syncStatus s Error, None)
           end
  end.

(** One tick of the 5 s background loop (lines 144-149): [syncFromCloud(true)]. *)
Definition heartbeat_enter (s : State) : option State := syncFromCloud_enter s true.

(** applyLocalUpdates (lines 151-157). *)
Definition applyLocalUpdates (s : State) (t : list Task) (c : list string)
    (l : list ActivityLog) : State :=
  if negb (is_admin s) then s
  else mkState (user s) t c l (syncStatus s) (lastSync s) true (isLocked s)
         (currentVersion s) (backup s) (online s) (remote s).

(** handleUpdateTask (lines 159-172). *)
Definition handleUpdateTask (s : State) (tid : string) (u : TaskUpdate) (now : Z)
    (rid : string) : State :=
  if negb (is_admin s) then s
  else
    let nextTasks := map_update (tasks s) tid u now in
    let task := find_task (tasks s) tid in
    let log := mkLog rid tid
                 (or_default (match task with Some t => title t | None => "" end) "Unknown")
                 (nick s)
                 (match upd_status u with
                  | Some st => "set status: " ++ TaskStatus_str st
                  | None => "modified details"
                  end)%string
                 now in
    applyLocalUpdates s nextTasks (categories s) (log :: logs s).

(** handleDeleteTask (lines 174-188); [confirmed] is the answer to confirm(). *)
Definition handleDeleteTask (s : State) (tid : string) (confirmed : bool) (now : Z)
    (rid : string) : State :=
  if negb (is_admin s) then s
  else match find_task (tasks s) tid with
       | None => s
       | Some task =>
           if negb confirmed then s
           else applyLocalUpdates s (remove_task (tasks s) tid) (categories s)
                  (mkLog rid tid (title task) (nick s) "deleted task" now :: logs s)
       end.

(** handleFormSubmit (lines 190-212); [rid_task] and [rid_log] are the
    Math.random ids of the new task and of the log entry. *)
Definition handleFormSubmit (s : State) (data : FormData) (editingTask : option Task)
    (now : Z) (rid_task rid_log : string) : State :=
  if negb (is_admin s) then s
  else
    let nextCats := add_category (categories s) (fd_category data) in
    let nextTasks := match editingTask with
                     | Some et => map_update (tasks s) (id et) (form_as_update data) now
                     | None => (tasks s ++ [new_task rid_task data now])%list
                     end in
    let log := mkLog rid_log
                 (match editingTask with Some et => id et | None => "new" end)
                 (fd_title data) (nick s)
                 (match editingTask with
                  | Some _ => "updated task entry"
                  | None => "created new task"
                  end) now in
    applyLocalUpdates s nextTasks nextCats (log :: logs s).

Definition set_user (s : State) (u : option User) : State :=
  mkState u (tasks s) (categories s) (logs s) (syncStatus s) (lastSync s)
    (hasUnsavedChanges s) (isLocked s) (currentVersion s) (backup s) (online s) (remote s).

(** *** Interleaving of the asynchronous operations

    The single-threaded event loop runs the synchronous prefix of an
    operation ([_enter]) when it is called and its continuation
    ([_settle]) when its fetch settles; in between, any other handler may
    run.  A configuration pairs the state with the operations whose fetch
    is outstanding. *)
Inductive Op := OpPull | OpPush (p : ProjectData).

Definition Config := (State * list Op)%type.

Inductive step : Config -> Config -> Prop :=
| step_pull_start s s' ops sil :
    syncFromCloud_enter s sil = Some s' -> step (s, ops) (s', OpPull :: ops)
| step_push_start s s' ops now p :
    pushToCloud_enter s now = (s', Some p) -> step (s, ops) (s', OpPush p :: ops)
| step_pull_end s s' ops1 ops2 now resp :
    syncFromCloud_settle s now resp = (s', None) ->
    step (s, ops1 ++ OpPull :: ops2) (s', ops1 ++ ops2)
| step_pull_end_push s s' ops1 ops2 now resp p :
    syncFromCloud_settle s now resp = (s', Some p) ->
    step (s, ops1 ++ OpPull :: ops2) (s', OpPush p :: ops1 ++ ops2)
| step_push_end s ops1 ops2 p now resp :
    step (s, ops1 ++ OpPush p :: ops2) (pushToCloud_settle s p now resp, ops1 ++ ops2)
| step_update s ops tid u now rid :
    step (s, ops) (handleUpdateTask s tid u now rid, ops)
| step_delete s ops tid conf now rid :
    step (s, ops) (handleDeleteTask s tid conf now rid, ops)
| step_submit s ops data et now r1 r2 :
    step (s, ops) (handleFormSubmit s data et now r1 r2, ops)
| step_net s ops b : step (s, ops) (set_online s b, ops)
| step_session s ops u : step (s, ops) (set_user s u, ops).

Inductive reachable : Config -> Prop :=
| reach_boot session cache initial on rem :
    reachable (boot session cache initial on rem, [])
| reach_step c c' : reachable c -> step c c' -> reachable c'.

Fixpoint push_count (ops : list Op) : nat :=
  match ops with
  | [] => 0
  | OpPush _ :: r => S (push_count r)
  | OpPull :: r => push_count r
  end.

End V9.

(** ** Variant V6: src/App.tsx, second component (lines 353-727) *)
Module V6.

Inductive SyncStatus := Synced | Syncing | Error | Checking.

Record State := mkState {
  user : option string;                    (* user?.nickname *)
  tasks : list Task;
  categories : list string;
  logs : list ActivityLog;
  syncStatus : SyncStatus;
  lastUpdate : Z;                          (* useRef [lastUpdateRef] *)
  isSyncing : bool;                        (* useRef [isSyncingRef] *)
  st_tasks : option (list Task);           (* localStorage[STORAGE_KEY_TASKS] *)
  st_categories : option (list string);    (* localStorage[STORAGE_KEY_CATEGORIES] *)
  st_logs : option (list ActivityLog);     (* localStorage[STORAGE_KEY_LOGS] *)
  st_lastUpdate : option Z;                (* localStorage[STORAGE_KEY_LAST_UPDATE] *)
  pushScheduled : bool                     (* setTimeout(() => pushToCloud(), 100) *)
}.

(** handleDataChange (lines 538-553). *)
Definition handleDataChange (s : State) (t : list Task) (c : list string)
    (l : list ActivityLog) (now : Z) : State :=
  mkState (user s) t c l (syncStatus s) now (isSyncing s)
    (Some t) (Some c) (Some l) (Some now) true.

(** The arguments a handler passes to addLog besides the current logs. *)
Record LogCall := mkCall {
  lc_taskId : string;
  lc_title : string;
  lc_action : string;
  lc_tasks : list Task;
  lc_categories : list string
}.

(** The [newLog] that addLog builds (lines 556-563). *)
Definition newLog (s : State) (rid : string) (now : Z) (lc : LogCall) : ActivityLog :=
  mkLog rid (lc_taskId lc) (lc_title lc) (or_default (pick (user s) "") "Anonymous")
    (lc_action lc) now.

(** addLog (lines 555-566), called by every handler with the current
    [logs] as [currentLogs]. *)
Definition addLog (s : State) (rid : string) (now : Z) (lc : LogCall) : State :=
  let updatedLogs := slice50 (newLog s rid now lc :: logs s) in
  handleDataChange s (lc_tasks lc) (lc_categories lc) updatedLogs now.

(** The action label of updateTask (lines 572-574). *)
Definition updateTask_label (task : Task) (u : TaskUpdate) : string :=
  match upd_status u with
  | Some st =>
      if negb (TaskStatus_eqb st (status task)) then ("status: " ++ TaskStatus_str st)%string
      else match upd_assignee u with
           | Some a => ("assigned to " ++ or_default (pick a "") "Unassigned")%string
           | None => "updated"
           end
  | None =>
      match upd_assignee u with
      | Some a => ("assigned to " ++ or_default (pick a "") "Unassigned")%string
      | None => "updated"
      end
  end.

(** updateTask (lines 568-578): the addLog call it makes, if any. *)
Definition updateTask_call (s : State) (tid : string) (u : TaskUpdate) (now : Z)
  : option LogCall :=
  match find_task (tasks s) tid with
  | None => None
  | Some task =>
      Some (mkCall tid (title task) (updateTask_label task u)
              (map_update (tasks s) tid u now) (categories s))
  end.

(** deleteTask (lines 580-585); [confirmed] is the answer to confirm(). *)
Definition deleteTask_call (s : State) (tid : string) (confirmed : bool)
  : option LogCall :=
  match find_task (tasks s) tid with
  | None => None
  | Some task =>
      if negb confirmed then None
      else Some (mkCall tid (title task) "removed task" (remove_task (tasks s) tid)
                   (categories s))
  end.

(** handleFormSubmit (lines 587-612); [rid_task] is the new task's id. *)
Definition handleFormSubmit_call (s : State) (data : FormData)
    (editingTask : option Task) (now : Z) (rid_task : string) : option LogCall :=
  let currentCategories := add_category (categories s) (fd_category data) in
  match editingTask with
  | Some et =>
      Some (mkCall (id et) (fd_title data) "updated details"
              (map_update (tasks s) (id et) (form_as_update data) now) currentCategories)
  | None =>
      let nt := new_task rid_task data now in
      Some (mkCall (id nt) (title nt) "created new task" (tasks s ++ [nt])
              currentCategories)
  end.

(** The log-producing handlers: task update, task delete, and form submit
    (which creates or edits a task and creates its category when new). *)
Inductive Mutation :=
| MUpdate (tid : string) (u : TaskUpdate)
| MDelete (tid : string) (confirmed : bool)
| MSubmit (data : FormData) (editingTask : option Task).

(** One UI event: the handler with its clock reading and random ids. *)
Record Event := mkEvent {
  ev_mut : Mutation;
  ev_now : Z;
  ev_rid_log : string;
  ev_rid_task : string
}.

Definition mutation_call (s : State) (ev : Event) : option LogCall :=
  match ev_mut ev with
  | MUpdate tid u => updateTask_call s tid u (ev_now ev)
  | MDelete tid conf => deleteTask_call s tid conf
  | MSubmit d et => handleFormSubmit_call s d et (ev_now ev) (ev_rid_task ev)
  end.

(** Running a handler: [if (...) return;] or a call of addLog. *)
Definition handle (s : State) (ev : Event) : State :=
  match mutation_call s ev with
  | None => s
  | Some lc => addLog s (ev_rid_log ev) (ev_now ev) lc
  end.

Fixpoint run (s : State) (evs : list Event) : State :=
  match evs with
  | [] => s
  | ev :: evs' => run (handle s ev) evs'
  end.

(** The entries the handlers of [evs] insert, oldest first. *)
Fixpoint inserted (s : State) (evs : list Event) : list ActivityLog :=
  match evs with
  | [] => []
  | ev :: evs' =>
      match mutation_call s ev with
      | None => inserted s evs'
      | Some lc => newLog s (ev_rid_log ev) (ev_now ev) lc :: inserted (handle s ev) evs'
      end
  end.

End V6.

(** ** Variant V11: src/types.ts, first component (lines 38-361) *)
Module V11.

Inductive SyncStatus := Synced | Syncing | Error | Checking.

Record State := mkState {
  user : option string;          (* user?.nickname *)
  tasks : list Task;
  categories : list string;
  logs : list ActivityLog;
  syncStatus : SyncStatus;
  syncBusy : bool                (* useRef [syncBusy] *)
}.

(** The body of broadcast's PUT: tasks, categories, logs, lastUpdate. *)
Definition Payload := (list Task * list string * list ActivityLog * Z)%type.

(** broadcast (lines 78-110), synchronous prefix. *)
Definition broadcast_enter (s : State) (t : list Task) (c : list string)
    (l : list ActivityLog) (now : Z) : State * option Payload :=
  if syncBusy s then (s, None)
  else (mkState (user s) (tasks s) (categories s) (logs s) Syncing true,
        Some (t, c, l, now)).

(** handleDataUpdate (lines 181-186). *)
Definition handleDataUpdate (s : State) (t : list Task) (c : list string)
    (l : list ActivityLog) (now : Z) : State * option Payload :=
  broadcast_enter (mkState (user s) t c l (syncStatus s) (syncBusy s)) t c l now.

(** The [newLog] that createLog builds (lines 189-196). *)
Definition newLog (s : State) (rid : string) (now : Z) (tid title action : string)
  : ActivityLog :=
  mkLog rid tid title (or_default (pick (user s) "") "Team Member") action now.

(** createLog (lines 188-199). *)
Definition createLog (s : State) (rid : string) (now : Z) (tid title action : string)
    (t : list Task) (c : list string) (l : list ActivityLog) : State * option Payload :=
  handleDataUpdate s t c (slice50 (newLog s rid now tid title action :: l)) now.

(** The action label of updateTask (lines 205-207). *)
Definition updateTask_label (task : Task) (u : TaskUpdate) : string :=
  match upd_status u with
  | Some st =>
      if negb (TaskStatus_eqb st (status task))
      then ("changed status to " ++ TaskStatus_str st)%string
      else match upd_assignee u with
           | Some a => ("assigned task to " ++ or_default (pick a "") "Unassigned")%string
           | None => "updated the task details"
           end
  | None =>
      match upd_assignee u with
      | Some a => ("assigned task to " ++ or_default (pick a "") "Unassigned")%string
      | None => "updated the task details"
      end
  end.

(** updateTask (lines 201-211). *)
Definition updateTask (s : State) (tid : string) (u : TaskUpdate) (now : Z)
    (rid : string) : State * option Payload :=
  match find_task (tasks s) tid with
  | None => (s, None)
  | Some task =>
      createLog s rid now tid (title task) (updateTask_label task u)
        (map_update (tasks s) tid u now) (categories s) (logs s)
  end.

(** deleteTask (lines 213-218); [confirmed] is the answer to confirm(). *)
Definition deleteTask (s : State) (tid : string) (confirmed : bool) (now : Z)
    (rid : string) : State * option Payload :=
  match find_task (tasks s) tid with
  | None => (s, None)
  | Some task =>
      if negb confirmed then (s, None)
      else createLog s rid now tid (title task) "removed the task"
             (remove_task (tasks s) tid) (categories s) (logs s)
  end.

(** onFormSubmit (lines 220-245); [rid_task] and [rid_log] are the
    Math.random ids of the new task and of the log entry. *)
Definition onFormSubmit (s : State) (data : FormData) (editingTask : option Task)
    (now : Z) (rid_task rid_log : string) : State * option Payload :=
  let freshCats := add_category (categories s) (fd_category data) in
  match editingTask with
  | Some et =>
      createLog s rid_log now (id et) (fd_title data) "modified task settings"
        (map_update (tasks s) (id et) (form_as_update data) now) freshCats (logs s)
  | None =>
      let nt := new_task rid_task data now in
      createLog s rid_log now (id nt) (title nt) "created a new task"
        (tasks s ++ [nt]) freshCats (logs s)
  end.

(** Running the handler of a UI event (the events of [V6.Event]). *)
Definition handle (s : State) (ev : V6.Event) : State :=
  fst (match V6.ev_mut ev with
       | V6.MUpdate tid u => updateTask s tid u (V6.ev_now ev) (V6.ev_rid_log ev)
       | V6.MDelete tid cf => deleteTask s tid cf (V6.ev_now ev) (V6.ev_rid_log ev)
       | V6.MSubmit d et =>
           onFormSubmit s d et (V6.ev_now ev) (V6.ev_rid_task ev) (V6.ev_rid_log ev)
       end).

(** The entry that handler inserts into the log, if any. *)
Definition entry (s : State) (ev : V6.Event) : option ActivityLog :=
  let now := V6.ev_now ev in
  let rid := V6.ev_rid_log ev in
  match V6.ev_mut ev with
  | V6.MUpdate tid u =>
      match find_task (tasks s) tid with
      | None => None
      | Some task => Some (newLog s rid now tid (title task) (updateTask_label task u))
      end
  | V6.MDelete tid cf =>
      match find_task (tasks s) tid with
      | None => None
      | Some task =>
          if negb cf then None else Some (newLog s rid now tid (title task) "removed the task")
      end
  | V6.MSubmit d (Some et) => Some (newLog s rid now (id et) (fd_title d) "modified task settings")
  | V6.MSubmit d None =>
      Some (newLog s rid now (V6.ev_rid_task ev) (fd_title d) "created a new task")
  end.

End V11.

(** ** Variant V13: src/App.tsx, third component (lines 729-1080) *)
Module V13.

Inductive SyncStatus := Synced | Syncing | Error | Checking | Offline.

(** The cached payload: tasks, categories, logs, lastUpdate. *)
Definition Payload := (list Task * list string * list ActivityLog * Z)%type.

Record State := mkState {
  tasks : list Task;
  categories : list string;
  logs : list ActivityLog;
  syncStatus : SyncStatus;
  lastUpdateTs : Z;              (* useRef [lastUpdateTs] *)
  isSyncing : bool;              (* useRef [isSyncing] *)
  cache : option Payload;        (* localStorage[STORAGE_KEY_DATA] *)
  online : bool                  (* navigator.onLine *)
}.

(** broadcast (lines 783-820), synchronous prefix: the local write comes
    before the online and lock checks. *)
Definition broadcast_enter (s : State) (t : list Task) (c : list string)
    (l : list ActivityLog) (now : Z) : State * option Payload :=
  let payload := (t, c, l, now) in
  let s1 := mkState (tasks s) (categories s) (logs s) (syncStatus s) now
              (isSyncing s) (Some payload) (online s) in
  if negb (online s) || isSyncing s then (s1, None)
  else (mkState (tasks s1) (categories s1) (logs s1) Syncing (lastUpdateTs s1) true
          (cache s1) (online s1), Some payload).

(** handleUpdate (lines 920-925), the mutate entry point. *)
Definition handleUpdate_enter (s : State) (t : list Task) (c : list string)
    (l : list ActivityLog) (now : Z) : State * option Payload :=
  broadcast_enter (mkState t c l (syncStatus s) (lastUpdateTs s) (isSyncing s)
                     (cache s) (online s)) t c l now.

(** The [newLog] that addLog builds (lines 928-935); [user] is
    [user?.nickname]. *)
Definition newLog (user : option string) (rid : string) (now : Z) (tid title action : string)
  : ActivityLog :=
  mkLog rid tid title (or_default (pick user "") "Team") action now.

(** addLog (lines 927-938). *)
Definition addLog (s : State) (user : option string) (rid : string) (now : Z)
    (tid title action : string) (t : list Task) (c : list string) (l : list ActivityLog)
  : State * option Payload :=
  handleUpdate_enter s t c (slice50 (newLog user rid now tid title action :: l)) now.

(** The action label of onUpdateTask (lines 944-946). *)
Definition onUpdateTask_label (task : Task) (u : TaskUpdate) : string :=
  match upd_status u with
  | Some st =>
      if negb (TaskStatus_eqb st (status task))
      then ("moved to " ++ TaskStatus_str st)%string
      else match upd_assignee u with
           | Some a => ("assigned to " ++ or_default (pick a "") "Unassigned")%string
           | None => "updated details"
           end
  | None =>
      match upd_assignee u with
      | Some a => ("assigned to " ++ or_default (pick a "") "Unassigned")%string
      | None => "updated details"
      end
  end.

(** onUpdateTask (lines 940-950). *)
Definition onUpdateTask (s : State) (user : option string) (tid : string) (u : TaskUpdate)
    (now : Z) (rid : string) : State * option Payload :=
  match find_task (tasks s) tid with
  | None => (s, None)
  | Some task =>
      addLog s user rid now tid (title task) (onUpdateTask_label task u)
        (map_update (tasks s) tid u now) (categories s) (logs s)
  end.

(** onDeleteTask (lines 952-957); [confirmed] is the answer to confirm(). *)
Definition onDeleteTask (s : State) (user : option string) (tid : string) (confirmed : bool)
    (now : Z) (rid : string) : State * option Payload :=
  match find_task (tasks s) tid with
  | None => (s, None)
  | Some task =>
      if negb confirmed then (s, None)
      else addLog s user rid now tid (title task) "removed the task"
             (remove_task (tasks s) tid) (categories s) (logs s)
  end.

(** onFormSubmit (lines 959-982); [rid_task] and [rid_log] are the
    Math.random ids of the new task and of the log entry. *)
Definition onFormSubmit (s : State) (user : option string) (data : FormData)
    (editingTask : option Task) (now : Z) (rid_task rid_log : string)
  : State * option Payload :=
  let freshCats := add_category (categories s) (fd_category data) in
  match editingTask with
  | Some et =>
      addLog s user rid_log now (id et) (fd_title data) "modified settings"
        (map_update (tasks s) (id et) (form_as_update data) now) freshCats (logs s)
  | None =>
      let nt := new_task rid_task data now in
      addLog s user rid_log now (id nt) (title nt) "added new task"
        (tasks s ++ [nt]) freshCats (logs s)
  end.

(** Running the handler of a UI event (the events of [V6.Event]). *)
Definition handle (user : option string) (s : State) (ev : V6.Event) : State :=
  fst (match V6.ev_mut ev with
       | V6.MUpdate tid u => onUpdateTask s user tid u (V6.ev_now ev) (V6.ev_rid_log ev)
       | V6.MDelete tid cf => onDeleteTask s user tid cf (V6.ev_now ev) (V6.ev_rid_log ev)
       | V6.MSubmit d et =>
           onFormSubmit s user d et (V6.ev_now ev) (V6.ev_rid_task ev) (V6.ev_rid_log ev)
       end).

(** The entry that handler inserts into the log, if any. *)
Definition entry (user : option string) (s : State) (ev : V6.Event) : option ActivityLog :=
  let now := V6.ev_now ev in
  let rid := V6.ev_rid_log ev in
  match V6.ev_mut ev with
  | V6.MUpdate tid u =>
      match find_task (tasks s) tid with
      | None => None
      | Some task => Some (newLog user rid now tid (title task) (onUpdateTask_label task u))
      end
  | V6.MDelete tid cf =>
      match find_task (tasks s) tid with
      | None => None
      | Some task =>
          if negb cf then None
          else Some (newLog user rid now tid (title task) "removed the task")
      end
  | V6.MSubmit d (Some et) => Some (newLog user rid now (id et) (fd_title d) "modified settings")
  | V6.MSubmit d None =>
      Some (newLog user rid now (V6.ev_rid_task ev) (fd_title d) "added new task")
  end.

End V13.

(** ** types.ts, second component: addActivity and its handlers (lines 562-600) *)
Module V19Log.

(** The [log] that addActivity builds (lines 563-570). *)
Definition newLog (s : V19.State) (rid : string) (now : Z) (tid title action : string)
  : ActivityLog :=
  mkLog rid tid title (or_default (pick (V19.user s) "") "User") action now.

(** addActivity (lines 562-572). *)
Definition addActivity (s : V19.State) (rid : string) (now : Z) (tid title action : string)
    (t : list Task) (c : list string) (l : list ActivityLog) : V19.State * option ProjectData :=
  V19.handleDataChange_enter s t c (slice50 (newLog s rid now tid title action :: l)) now.

(** The action label of onUpdateTask (line 578). *)
Definition onUpdateTask_label (u : TaskUpdate) : string :=
  match upd_status u with
  | Some st => ("durumunu " ++ TaskStatus_str st ++ " yaptı")%string
  | None => "güncelledi"
  end.

(** onUpdateTask (lines 574-579). *)
Definition onUpdateTask (s : V19.State) (tid : string) (u : TaskUpdate) (now : Z)
    (rid : string) : V19.State * option ProjectData :=
  match find_task (V19.tasks s) tid with
  | None => (s, None)
  | Some task =>
      addActivity s rid now tid (title task) (onUpdateTask_label u)
        (map_update (V19.tasks s) tid u now) (V19.categories s) (V19.logs s)
  end.

(** onDeleteTask (lines 581-586); [confirmed] is the answer to confirm(). *)
Definition onDeleteTask (s : V19.State) (tid : string) (confirmed : bool) (now : Z)
    (rid : string) : V19.State * option ProjectData :=
  match find_task (V19.tasks s) tid with
  | None => (s, None)
  | Some task =>
      if negb confirmed then (s, None)
      else addActivity s rid now tid (title task) "görevi sildi"
             (remove_task (V19.tasks s) tid) (V19.categories s) (V19.logs s)
  end.

(** onFormSubmit (lines 588-600); [rid_task] and [rid_log] are the
    Math.random ids of the new task and of the log entry. *)
Definition onFormSubmit (s : V19.State) (data : FormData) (editingTask : option Task)
    (now : Z) (rid_task rid_log : string) : V19.State * option ProjectData :=
  let activeCats := add_category (V19.categories s) (fd_category data) in
  let nextTasks := match editingTask with
                   | Some et => map_update (V19.tasks s) (id et) (form_as_update data) now
                   | None => (V19.tasks s ++ [new_task rid_task data now])%list
                   end in
  addActivity s rid_log now (match editingTask with Some et => id et | None => "new" end)
    (fd_title data) (match editingTask with Some _ => "düzenledi" | None => "ekledi" end)
    nextTasks activeCats (V19.logs s).

(** Running the handler of a UI event (the events of [V6.Event]). *)
Definition handle (s : V19.State) (ev : V6.Event) : V19.State :=
  fst (match V6.ev_mut ev with
       | V6.MUpdate tid u => onUpdateTask s tid u (V6.ev_now ev) (V6.ev_rid_log ev)
       | V6.MDelete tid cf => onDeleteTask s tid cf (V6.ev_now ev) (V6.ev_rid_log ev)
       | V6.MSubmit d et =>
           onFormSubmit s d et (V6.ev_now ev) (V6.ev_rid_task ev) (V6.ev_rid_log ev)
       end).

(** The entry that handler inserts into the log, if any. *)
Definition entry (s : V19.State) (ev : V6.Event) : option ActivityLog :=
  let now := V6.ev_now ev in
  let rid := V6.ev_rid_log ev in
  match V6.ev_mut ev with
  | V6.MUpdate tid u =>
      match find_task (V19.tasks s) tid with
      | None => None
      | Some task => Some (newLog s rid now tid (title task) (onUpdateTask_label u))
      end
  | V6.MDelete tid cf =>
      match find_task (V19.tasks s) tid with
      | None => None
      | Some task =>
          if negb cf then None else Some (newLog s rid now tid (title task) "görevi sildi")
      end
  | V6.MSubmit d (Some et) => Some (newLog s rid now (id et) (fd_title d) "düzenledi")
  | V6.MSubmit d None => Some (newLog s rid now "new" (fd_title d) "ekledi")
  end.

End V19Log.

(** ** Sequences of handler calls

    [run handle s evs] runs the handler of each event of [evs] in turn;
    [inserted handle entry s evs] lists the log entries they insert,
    oldest first, where [entry] gives the entry a handler inserts, if
    any. *)
Module Handlers.

Fixpoint run {S E : Type} (handle : S -> E -> S) (s : S) (evs : list E) : S :=
  match evs with
  | [] => s
  | ev :: evs' => run handle (handle s ev) evs'
  end.

Fixpoint inserted {S E : Type} (handle : S -> E -> S) (entry : S -> E -> option ActivityLog)
    (s : S) (evs : list E) : list ActivityLog :=
  match evs with
  | [] => []
  | ev :: evs' =>
      match entry s ev with
      | None => inserted handle entry (handle s ev) evs'
      | Some e => e :: inserted handle entry (handle s ev) evs'
      end
  end.

End Handlers.

(** The shape of the update label in the variants that look at the
    status and assignee fields: a status field naming a different status
    gives [status_prefix] and the status; otherwise a present assignee
    field gives [assign_prefix] and the name ("Unassigned" when cleared);
    otherwise the [generic] label; and nothing else of the update
    matters. *)
Definition label_rule (label : Task -> TaskUpdate -> string)
    (status_prefix assign_prefix generic : string) : Prop :=
  (forall task u1 u2, upd_status u1 = upd_status u2 -> upd_assignee u1 = upd_assignee u2 ->
     label task u1 = label task u2) /\
  (forall task u st, upd_status u = Some st -> st <> status task ->
     label task u = (status_prefix ++ TaskStatus_str st)%string) /\
  (forall task u a, (upd_status u = None \/ upd_status u = Some (status task)) ->
     upd_assignee u = Some a ->
     label task u = (assign_prefix ++ or_default (pick a "") "Unassigned")%string) /\
  (forall task u, (upd_status u = None \/ upd_status u = Some (status task)) ->
     upd_assignee u = None -> label task u = generic).

(** ** Login: src/components/NicknameModal.tsx, handleSubmit (lines 12-18)

    Strings are sequences of 8-bit code units (the Latin-1 block of
    UTF-16); [trim] and [toLowerCase] follow String.prototype.trim and
    String.prototype.toLowerCase on that block. *)
Module Login.

(** WhiteSpace and LineTerminator code units below 256: TAB, LF, VT, FF,
    CR, SPACE and NO-BREAK SPACE. *)
Definition is_js_space (c : ascii) : bool :=
  let n := nat_of_ascii c in
  (Nat.leb 9 n && Nat.leb n 13) || Nat.eqb n 32 || Nat.eqb n 160.

Fixpoint drop_space (l : list ascii) : list ascii :=
  match l with
  | [] => []
  | c :: r => if is_js_space c then drop_space r else l
  end.

(** String.prototype.trim *)
Definition trim (s : string) : string :=
  string_of_list_ascii
    (rev (drop_space (rev (drop_space (list_ascii_of_string s))))).

(** Lower-casing of one code unit: A-Z and the Latin-1 capitals
    U+00C0-U+00DE except U+00D7 map 32 code points down. *)
Definition lower_char (c : ascii) : ascii :=
  let n := nat_of_ascii c in
  if (Nat.leb 65 n && Nat.leb n 90)
     || (Nat.leb 192 n && Nat.leb n 222 && negb (Nat.eqb n 215))
  then ascii_of_nat (n + 32) else c.

(** String.prototype.toLowerCase *)
Fixpoint toLowerCase (s : string) : string :=
  match s with
  | EmptyString => EmptyString
  | String c r => String (lower_char c) (toLowerCase r)
  end.

Definition ADMIN_PASSWORD : string := "wetlands".

(** handleSubmit: [None] when it returns early, otherwise the arguments
    of [onJoin(nickname.trim(), isLoggingAsAdmin)]. *)
Definition handleSubmit (nickname password : string) : option (string * bool) :=
  if String.eqb (trim nickname) "" then None
  else
    let isLoggingAsAdmin :=
      String.eqb (toLowerCase (trim nickname)) "admin"
      && String.eqb password ADMIN_PASSWORD in
    Some (trim nickname, isLoggingAsAdmin).

(** Case-insensitive equality with a target, read off the words "equals
    ... case-insensitively": each unit equals the target's unit, or is its
    ASCII upper-case form. *)
Definition char_ci (c d : ascii) : bool :=
  Ascii.eqb c d
  || (Nat.leb 97 (nat_of_ascii d) && Nat.leb (nat_of_ascii d) 122
      && Nat.eqb (nat_of_ascii c + 32) (nat_of_ascii d)).

Fixpoint ci_eq (s t : string) : bool :=
  match s, t with
  | EmptyString, EmptyString => true
  | String c r, String d r' => char_ci c d && ci_eq r r'
  | _, _ => false
  end.

End Login.

(** ** Snapshot documents with a [lastUpdate] timestamp

    The App.tsx second and third components and the types.ts first
    component store [{ tasks, categories, logs, lastUpdate }] remotely;
    the GET of such a document resolves with one of these bodies. *)
Definition Snapshot := (list Task * list string * list ActivityLog * Z)%type.

Inductive SBody := SEmpty | SJson (d : Snapshot) | SMalformed.

Inductive SResponse := SNetworkError | SHttp (code : Z) (body : SBody).

(** ** V6 sync: src/App.tsx, second component, pushToCloud and pullFromCloud *)
Module V6Sync.

Definition set_syncStatus (s : V6.State) (v : V6.SyncStatus) : V6.State :=
  V6.mkState (V6.user s) (V6.tasks s) (V6.categories s) (V6.logs s) v (V6.lastUpdate s)
    (V6.isSyncing s) (V6.st_tasks s) (V6.st_categories s) (V6.st_logs s)
    (V6.st_lastUpdate s) (V6.pushScheduled s).

Definition set_isSyncing (s : V6.State) (b : bool) : V6.State :=
  V6.mkState (V6.user s) (V6.tasks s) (V6.categories s) (V6.logs s) (V6.syncStatus s)
    (V6.lastUpdate s) b (V6.st_tasks s) (V6.st_categories s) (V6.st_logs s)
    (V6.st_lastUpdate s) (V6.pushScheduled s).

(** pushToCloud (lines 405-448), synchronous prefix; the payload is read
    from [stateRef.current], the latest tasks, categories and logs. *)
Definition pushToCloud_enter (s : V6.State) (now : Z) : V6.State * option Snapshot :=
  if V6.isSyncing s then (s, None)
  else (set_syncStatus (set_isSyncing s true) V6.Syncing,
        Some (V6.tasks s, V6.categories s, V6.logs s, now)).

(** pushToCloud after the PUT settles, through its [finally] block. *)
Definition pushToCloud_settle (s : V6.State) (payload : Snapshot) (resp : Response)
  : V6.State :=
  let timestamp := snd payload in
  let s' :=
    if resp_ok resp then
      V6.mkState (V6.user s) (V6.tasks s) (V6.categories s) (V6.logs s) V6.Synced
        timestamp (V6.isSyncing s) (V6.st_tasks s) (V6.st_categories s) (V6.st_logs s)
        (Some timestamp) (V6.pushScheduled s)
    else set_syncStatus s V6.Error in
  set_isSyncing s' false.

Definition pushToCloud (s : V6.State) (now : Z) (resp : Response) : V6.State :=
  match pushToCloud_enter s now with
  | (s1, None) => s1
  | (s1, Some p) => pushToCloud_settle s1 p resp
  end.

(** pullFromCloud (lines 451-500), synchronous prefix. *)
Definition pullFromCloud_enter (s : V6.State) (isManual : bool) : option V6.State :=
  if V6.isSyncing s then None
  else Some (set_syncStatus s (if isManual then V6.Syncing else V6.Checking)).

(** pullFromCloud after the GET settles; [push_resp] answers the awaited
    push that initialises an empty bucket. *)
Definition pullFromCloud_settle (s : V6.State) (isManual : bool) (now : Z)
    (resp : SResponse) (push_resp : Response) : V6.State :=
  match resp with
  | SNetworkError => set_syncStatus s V6.Error
  | SHttp code b =>
      if negb (code_ok code) then set_syncStatus s V6.Error
      else match b with
           | SEmpty =>
               if isManual then pushToCloud s now push_resp
               else set_syncStatus s V6.Synced
           | SMalformed => set_syncStatus s V6.Error
           | SJson (t, c, l, ts) =>
               let s1 :=
                 if V6.lastUpdate s <? ts then
                   V6.mkState (V6.user s) t c l (V6.syncStatus s) ts (V6.isSyncing s)
                     (Some t) (Some c) (Some l) (Some ts) (V6.pushScheduled s)
                 else s in
               set_syncStatus s1 V6.Synced
           end
  end.

(** The [finally] timer of a non-manual pull, one second later. *)
Definition pull_finally_timer (s : V6.State) : V6.State :=
  match V6.syncStatus s with
  | V6.Checking | V6.Syncing => set_syncStatus s V6.Synced
  | _ => s
  end.

(** One tick of the 10 s polling interval (lines 527-534). *)
Definition poll_tick (s : V6.State) : option V6.State :=
  match V6.syncStatus s with
  | V6.Synced => pullFromCloud_enter s false
  | _ => None
  end.

(** localStorage holds exactly the in-memory tasks, categories, logs and
    lastUpdate timestamp. *)
Definition mirrored (s : V6.State) : Prop :=
  V6.st_tasks s = Some (V6.tasks s) /\ V6.st_categories s = Some (V6.categories s) /\
  V6.st_logs s = Some (V6.logs s) /\ V6.st_lastUpdate s = Some (V6.lastUpdate s).

End V6Sync.

(** ** V13 sync: src/App.tsx, third component, broadcast's continuation, pull and poll

    [V13.State] with the [backoffCount] ref of the component. *)
Module V13Sync.

Record State := mkS { core : V13.State; backoffCount : Z }.

Definition set_syncStatus (s : V13.State) (v : V13.SyncStatus) : V13.State :=
  V13.mkState (V13.tasks s) (V13.categories s) (V13.logs s) v (V13.lastUpdateTs s)
    (V13.isSyncing s) (V13.cache s) (V13.online s).

Definition set_isSyncing (s : V13.State) (b : bool) : V13.State :=
  V13.mkState (V13.tasks s) (V13.categories s) (V13.logs s) (V13.syncStatus s)
    (V13.lastUpdateTs s) b (V13.cache s) (V13.online s).

(** broadcast (lines 783-820) after the PUT settles, through [finally]. *)
Definition broadcast_settle (s : State) (resp : Response) : State :=
  let s' :=
    if resp_ok resp then mkS (set_syncStatus (core s) V13.Synced) 0
    else mkS (set_syncStatus (core s) V13.Error) (backoffCount s + 1) in
  mkS (set_isSyncing (core s') false) (backoffCount s').

Definition broadcast (s : State) (t : list Task) (c : list string) (l : list ActivityLog)
    (now : Z) (resp : Response) : State :=
  match V13.broadcast_enter (core s) t c l now with
  | (c1, None) => mkS c1 (backoffCount s)
  | (c1, Some _) => broadcast_settle (mkS c1 (backoffCount s)) resp
  end.

(** pull (lines 825-865), synchronous prefix. *)
Definition pull_enter (s : State) (isManual : bool) : option State :=
  if V13.isSyncing (core s) || negb (V13.online (core s)) then None
  else Some (mkS (set_syncStatus (core s) (if isManual then V13.Syncing else V13.Checking))
               (backoffCount s)).

(** pull after the GET settles; [push_resp] answers the awaited broadcast
    that initialises an empty bucket.  [closure] is the [tasks],
    [categories] and [logs] of the render whose [pull] callback runs
    (useCallback with deps [tasks, categories, logs]): the current ones
    for the heartbeat and the sync button, the first render's
    ([], [], []) for the startup [pull(true)] of the []-deps effect. *)
Definition pull_settle (s : State) (isManual : bool) (now : Z)
    (closure : list Task * list string * list ActivityLog) (resp : SResponse)
    (push_resp : Response) : State :=
  let c := core s in
  match resp with
  | SNetworkError => mkS (set_syncStatus c V13.Error) (backoffCount s + 1)
  | SHttp code b =>
      if negb (code_ok code) then mkS (set_syncStatus c V13.Error) (backoffCount s)
      else match b with
           | SEmpty =>
               let '(tasks, categories, logs) := closure in
               let s1 := if isManual
                         then broadcast s tasks categories logs now push_resp
                         else s in
               mkS (set_syncStatus (core s1) V13.Synced) (backoffCount s1)
           | SMalformed => mkS (set_syncStatus c V13.Error) (backoffCount s + 1)
           | SJson (t, cs, l, ts) =>
               let c1 :=
                 if V13.lastUpdateTs c <? ts then
                   V13.mkState t cs l (V13.syncStatus c) ts (V13.isSyncing c)
                     (Some (t, cs, l, ts)) (V13.online c)
                 else c in
               mkS (set_syncStatus c1 V13.Synced) 0
           end
  end.

(** The delay before the next poll (lines 902-912). *)
Definition poll_delay (s : State) : Z :=
  let baseDelay := 8000 in
  let errorDelay := Z.min (backoffCount s * 10000) 40000 in
  baseDelay + errorDelay.

(** localStorage[STORAGE_KEY_DATA] holds the in-memory tasks, categories,
    logs and lastUpdateTs. *)
Definition mirrored (s : V13.State) : Prop :=
  V13.cache s = Some (V13.tasks s, V13.categories s, V13.logs s, V13.lastUpdateTs s).

End V13Sync.

(** ** V11 sync: src/types.ts, first component, broadcast's continuation and pull

    [V11.State] with the [lastUpdateRef] ref of the component. *)
Module V11Sync.

Record State := mkS { core : V11.State; lastUpdateRef : Z }.

Definition set_syncStatus (s : V11.State) (v : V11.SyncStatus) : V11.State :=
  V11.mkState (V11.user s) (V11.tasks s) (V11.categories s) (V11.logs s) v (V11.syncBusy s).

Definition set_syncBusy (s : V11.State) (b : bool) : V11.State :=
  V11.mkState (V11.user s) (V11.tasks s) (V11.categories s) (V11.logs s) (V11.syncStatus s) b.

(** broadcast (lines 78-110) after the PUT settles, through [finally]. *)
Definition broadcast_settle (s : State) (payload : V11.Payload) (resp : Response) : State :=
  let s' :=
    if resp_ok resp then mkS (set_syncStatus (core s) V11.Synced) (snd payload)
    else mkS (set_syncStatus (core s) V11.Error) (lastUpdateRef s) in
  mkS (set_syncBusy (core s') false) (lastUpdateRef s').

Definition broadcast (s : State) (t : list Task) (c : list string) (l : list ActivityLog)
    (now : Z) (resp : Response) : State :=
  match V11.broadcast_enter (core s) t c l now with
  | (c1, None) => mkS c1 (lastUpdateRef s)
  | (c1, Some p) => broadcast_settle (mkS c1 (lastUpdateRef s)) p resp
  end.

(** handleDataUpdate (lines 181-186) with its broadcast run to the end. *)
Definition handleDataUpdate (s : State) (t : list Task) (c : list string)
    (l : list ActivityLog) (now : Z) (resp : Response) : State :=
  match V11.handleDataUpdate (core s) t c l now with
  | (c1, None) => mkS c1 (lastUpdateRef s)
  | (c1, Some p) => broadcast_settle (mkS c1 (lastUpdateRef s)) p resp
  end.

(** pull (lines 115-154), synchronous prefix. *)
Definition pull_enter (s : State) (isManual : bool) : option State :=
  if V11.syncBusy (core s) && negb isManual then None
  else Some (mkS (set_syncStatus (core s) (if isManual then V11.Syncing else V11.Checking))
               (lastUpdateRef s)).

(** pull (lines 115-154) after the GET settles.  [closure] is the
    [tasks], [categories] and [logs] of the render whose [pull] callback
    runs (deps [tasks, categories, logs]): the first render's ([], [], [])
    for the startup [pull(true)] of the []-deps effect (line 165). *)
Definition pull_settle (s : State) (isManual : bool) (now : Z)
    (closure : list Task * list string * list ActivityLog) (resp : SResponse)
    (push_resp : Response) : State :=
  let c := core s in
  match resp with
  | SNetworkError => mkS (set_syncStatus c V11.Error) (lastUpdateRef s)
  | SHttp code b =>
      if negb (code_ok code) then mkS (set_syncStatus c V11.Error) (lastUpdateRef s)
      else match b with
           | SEmpty =>
               let '(tasks, categories, logs) := closure in
               let s1 := if isManual
                         then broadcast s tasks categories logs now push_resp
                         else s in
               mkS (set_syncStatus (core s1) V11.Synced) (lastUpdateRef s1)
           | SMalformed => mkS (set_syncStatus c V11.Error) (lastUpdateRef s)
           | SJson (t, cs, l, ts) =>
               let s1 :=
                 if lastUpdateRef s <? ts then
                   mkS (V11.mkState (V11.user c) t cs l (V11.syncStatus c) (V11.syncBusy c)) ts
                 else s in
               mkS (set_syncStatus (core s1) V11.Synced) (lastUpdateRef s1)
           end
  end.

End V11Sync.

(** ** part_004 sync tick (src/unnamed/part_004, lines 125-140) *)
Module P004Sync.

(** One tick of the 15 s interval: push while changes are pending,
    otherwise a silent pull. *)
Definition tick_enter (s : P004.State) (now : Z) : P004.State * Request :=
  if P004.hasPendingChanges s then
    match P004.pushData_enter s None now with
    | (s1, Some p) => (s1, ReqPut p)
    | (s1, None) => (s1, ReqNone)
    end
  else
    match P004.pullData_enter s true with
    | Some s1 => (s1, ReqGet)
    | None => (s, ReqNone)
    end.

End P004Sync.

(** ** CSV export: exportToCSV (src/App.tsx, lines 614-622) and exportCSV
    (src/types.ts, lines 247-256), which build the same text

    The Blob holds U+FEFF (outside the 8-bit model) followed by this text. *)
Module CSV.

Definition dq : string := String "034"%char EmptyString.

Definition lf : string := String "010"%char EmptyString.

Definition quoted (s : string) : string := (dq ++ s ++ dq)%string.

(** [s.replace(/\n/g, ' ')] *)
Fixpoint replace_lf (s : string) : string :=
  match s with
  | EmptyString => EmptyString
  | String c r => String (if Ascii.eqb c "010"%char then " "%char else c) (replace_lf r)
  end.

(** [arr.join(sep)] *)
Fixpoint join (sep : string) (l : list string) : string :=
  match l with
  | [] => EmptyString
  | [x] => x
  | x :: r => (x ++ sep ++ join sep r)%string
  end.

Definition headers : list string :=
  ["Category"; "Task"; "Status"; "Deadline"; "Assignee"; "Notes"].

Definition row (t : Task) : string :=
  join "," [quoted (category t); quoted (title t); quoted (TaskStatus_str (status t));
            quoted (pick (deadline t) ""); quoted (pick (assignee t) "");
            quoted (replace_lf (notes t))].

Definition exportToCSV_text (tasks : list Task) : string :=
  join lf (join "," headers :: map row tasks).

Fixpoint count_lf (s : string) : nat :=
  match s with
  | EmptyString => 0
  | String c r => ((if Ascii.eqb c "010"%char then 1 else 0) + count_lf r)%nat
  end.

(** The number of lines of a text: one more than its line feeds. *)
Definition line_count (s : string) : nat := S (count_lf s).

End CSV.

(** ** TaskListView (src/components/TaskListView.tsx, lines 27-128):
    the search filter and the per-category grouping of the rows *)
Module TaskListView.

Fixpoint prefixb (p s : string) : bool :=
  match p, s with
  | EmptyString, _ => true
  | String a p', String b s' => Ascii.eqb a b && prefixb p' s'
  | _, _ => false
  end.

(** [s.includes(sub)] *)
Fixpoint str_includes (s sub : string) : bool :=
  prefixb sub s || match s with EmptyString => false | String _ r => str_includes r sub end.

(** The predicate of [filteredTasks] (lines 27-32); an empty notes or
    assignee string is falsy. *)
Definition matches (searchTerm : string) (t : Task) : bool :=
  let q := Login.toLowerCase searchTerm in
  str_includes (Login.toLowerCase (title t)) q
  || str_includes (Login.toLowerCase (category t)) q
  || (negb (String.eqb (notes t) "") && str_includes (Login.toLowerCase (notes t)) q)
  || match assignee t with
     | Some a => negb (String.eqb a "") && str_includes (Login.toLowerCase a) q
     | None => false
     end.

Definition filteredTasks (tasks : list Task) (searchTerm : string) : list Task :=
  filter (matches searchTerm) tasks.

(** [categories.map(category => ...)]: each category's header row and the
    rows of its filtered tasks. *)
Definition groups (tasks : list Task) (categories : list string) (searchTerm : string)
  : list (string * list Task) :=
  map (fun c => (c, filter (fun t => String.eqb (category t) c)
                         (filteredTasks tasks searchTerm))) categories.

(** The task rows of the table, top to bottom. *)
Definition task_rows (tasks : list Task) (categories : list string) (searchTerm : string)
  : list Task :=
  flat_map snd (groups tasks categories searchTerm).

End TaskListView.

(** ** TaskFormModal.handleSubmit (src/components/TaskFormModal.tsx, lines 42-60)

    String.prototype.toUpperCase, which maps some Latin-1 units outside
    the 8-bit block, is a parameter. *)
Module TaskFormModal.

Inductive SubmitResult := Ignored | Alerted | Submitted (d : FormData).

Section Submit.

Variable toUpperCase : string -> string.

Definition handleSubmit (title category newCategoryName deadline notes assignee : string)
    (isNewCategory : bool) : SubmitResult :=
  if String.eqb (Login.trim title) "" then Ignored
  else
    let finalCategory :=
      if isNewCategory then toUpperCase (Login.trim newCategoryName) else category in
    if String.eqb finalCategory "" then Alerted
    else Submitted (mkForm (Login.trim title) finalCategory
                      (if String.eqb deadline "" then None else Some deadline)
                      (Login.trim notes)
                      (if String.eqb (Login.trim assignee) "" then None
                       else Some (Login.trim assignee))).

End Submit.

End TaskFormModal.

(** * The spec's description priority (spec section 4.2)

    Follows the spec's words, to be compared with [V6.updateTask_label]:
    the field a task update's description should reflect is the first
    changed one in the order status, rename, assignee, note, deadline,
    category. *)
Inductive Field := FStatus | FTitle | FAssignee | FNotes | FDeadline | FCategory.

Definition opt_str_eqb (a b : option string) : bool :=
  match a, b with
  | Some x, Some y => String.eqb x y
  | None, None => true
  | _, _ => false
  end.

Definition spec_priority_field (task : Task) (u : TaskUpdate) : option Field :=
  let changed {A} (o : option A) (eqb : A -> A -> bool) (cur : A) :=
    match o with Some v => negb (eqb v cur) | None => false end in
  if changed (upd_status u) TaskStatus_eqb (status task) then Some FStatus
  else if changed (upd_title u) String.eqb (title task) then Some FTitle
  else if changed (upd_assignee u) opt_str_eqb (assignee task) then Some FAssignee
  else if changed (upd_notes u) String.eqb (notes task) then Some FNotes
  else if changed (upd_deadline u) opt_str_eqb (deadline task) then Some FDeadline
  else if changed (upd_category u) String.eqb (category task) then Some FCategory
  else None.

(** * Concrete inputs used by the witnesses and counterexamples *)

Definition t1 : Task := mkTask "t1" "PREP" "Book venue" Pending "" None None 0.

Definition admin_user : User := mkUser "admin" true.

Definition guest_user : User := mkUser "guest" false.

(** A local cache at version 0 holding one task. *)
Definition d_cached : ProjectData := mkProjectData [t1] ["PREP"] [] 0 "admin" 0.

(** A remote snapshot stamped 2000 by a client whose clock runs ahead. *)
Definition r2000 : ProjectData := mkProjectData [t1] ["PREP"] [] 2000 "guest" 2000.

(** An admin session booted from [d_cached], online. *)
Definition v9_boot : V9.State :=
  V9.boot (Some admin_user) (Some d_cached) ([], []) true (Some r2000).

(** [v9_boot] after a silent pull, at clock 1000, that read [r2000]. *)
Definition v9_after_pull : V9.State :=
  fst (V9.syncFromCloud_settle v9_boot 1000 (HttpResponse 200 (BJson r2000))).


(** A V19 client at version 3, online and idle, with no local cache yet. *)
Definition v19_idle : V19.State :=
  V19.mkState [] ["PREP"] [] 3 3 false false V19.Online 0 None true (Some "ana") None.

(** The same client while the network is down. *)
Definition v19_offline : V19.State :=
  V19.mkState [] ["PREP"] [] 3 3 false false V19.Online 0 None false (Some "ana") None.

Definition r5 : ProjectData := mkProjectData [t1] ["PREP"] [] 5 "ana" 50.

Definition p004_idle : P004.State :=
  P004.mkState [] ["PREP"] [] P004.Online 0 false 3 false None true (Some "ana") None.

(** A rename of [t1] together with a reassignment, and the reassignment alone. *)
Definition u_rename_assign : TaskUpdate :=
  mkUpdate None (Some "Book hall") None None None (Some (Some "Ana")).

Definition u_assign : TaskUpdate := mkUpdate None None None None None (Some (Some "Ana")).

Definition u_completed : TaskUpdate := mkUpdate None None (Some Completed) None None None.

(** The admin of [v9_boot] edits [t1], then the push of that edit fails
    with a network error (or timeout). *)
Definition v9_after_edit : V9.State := V9.handleUpdateTask v9_boot "t1" u_completed 5 "r".

Definition v9_failed_push : V9.State := V9.pushToCloud v9_after_edit 10 NetworkError.

(** A guest session booted from [d_cached]. *)
Definition v9_guest : V9.State :=
  V9.boot (Some guest_user) (Some d_cached) ([], []) true (Some r2000).

(** A types.ts (first component) client holding [t1]. *)
Definition v11_demo : V11.State := V11.mkState (Some "ana") [t1] ["PREP"] [] V11.Synced false.

(** An App.tsx (second component) client holding [t1], with an empty log. *)
Definition v6_demo : V6.State :=
  V6.mkState (Some "ana") [t1] ["PREP"] [] V6.Synced 0 false None None None None false.


(** * Properties *)

(** The local snapshot a pull compares against and may replace. *)
Definition snapshot19 (s : V19.State) :=
  (V19.tasks s, V19.categories s, V19.logs s, V19.currentV s).

Definition snapshot004 (s : P004.State) :=
  (P004.tasks s, P004.categories s, P004.logs s, P004.currentVersion s).

Lemma code_ok_not_404 c : code_ok c = true -> (c =? 404) = false.
Proof.
  unfold code_ok. intros H. apply andb_true_iff in H as [H1 H2].
  apply Z.leb_le in H1. apply Z.ltb_lt in H2. apply Z.eqb_neq. lia.
Qed.

(** ** C1: a pull adopts a strictly newer remote snapshot, else keeps the local one *)

(** C1.  For a pull that passes its entry guard and receives a 2xx
    response whose body parses to a snapshot [r] (types.ts fetchCloudData
    and part_004 pullData): if [r]'s version is strictly greater than the
    current version, tasks, categories and logs become [r]'s and the
    current version becomes exactly [r]'s version; otherwise the local
    tasks, categories, logs and current version are unchanged. *)
Theorem pull_adopts_newer_snapshot :
  (forall s showLoading s1 now c r push_resp,
     V19.fetchCloudData_enter s showLoading = Some s1 ->
     code_ok c = true ->
     snapshot19 (V19.fetchCloudData_settle s1 showLoading now
                   (HttpResponse c (BJson r)) push_resp)
     = if V19.currentV s <? version r
       then (pd_tasks r, pd_categories r, pd_logs r, version r)
       else snapshot19 s) /\
  (forall s silent s1 now c r push_resp,
     P004.pullData_enter s silent = Some s1 ->
     code_ok c = true ->
     snapshot004 (P004.pullData_settle s1 silent now
                    (HttpResponse c (BJson r)) push_resp)
     = if P004.currentVersion s <? version r
       then (pd_tasks r, pd_categories r, pd_logs r, version r)
       else snapshot004 s).
Proof.
  split.
  - intros s showLoading s1 now c r push_resp Henter Hc.
    unfold V19.fetchCloudData_enter in Henter.
    destruct (V19.isSyncing s || negb (V19.online s)); [discriminate|].
    injection Henter as <-.
    unfold V19.fetchCloudData_settle. rewrite Hc. simpl.
    destruct showLoading; simpl;
      destruct (V19.currentV s <? version r); reflexivity.
  - intros s silent s1 now c r push_resp Henter Hc.
    unfold P004.pullData_enter in Henter.
    destruct (P004.syncLock s || negb (P004.online s) || P004.hasPendingChanges s);
      [discriminate|].
    injection Henter as <-.
    unfold P004.pullData_settle. rewrite (code_ok_not_404 c Hc), Hc. simpl.
    destruct silent; simpl;
      destruct (P004.currentVersion s <? version r); reflexivity.
Qed.

(** ** C9: the admin flag at login *)

Section LoginProofs.
Import Login.

(** [lower_char c = d] and [char_ci c d] agree on all 256 code units. *)
Definition chars_agree (d : ascii) : bool :=
  forallb (fun n => Bool.eqb (Ascii.eqb (lower_char (ascii_of_nat n)) d)
                             (char_ci (ascii_of_nat n) d))
    (seq 0 256).

Lemma chars_agree_spec d :
  chars_agree d = true -> forall c, lower_char c = d <-> char_ci c d = true.
Proof.
  intros H c. unfold chars_agree in H. rewrite forallb_forall in H.
  assert (Hin : In (nat_of_ascii c) (seq 0 256)).
  { apply in_seq. pose proof (nat_ascii_bounded c). lia. }
  specialize (H _ Hin). rewrite ascii_nat_embedding in H.
  apply Bool.eqb_prop in H. rewrite <- H.
  split; intro E.
  - subst. apply Ascii.eqb_refl.
  - apply Ascii.eqb_eq. exact E.
Qed.

Lemma toLowerCase_ci s t :
  forallb chars_agree (list_ascii_of_string t) = true ->
  (toLowerCase s = t <-> ci_eq s t = true).
Proof.
  revert t. induction s as [|c s IH]; intros [|d t] Ht; simpl.
  - split; reflexivity.
  - split; discriminate.
  - split; discriminate.
  - simpl in Ht. apply andb_true_iff in Ht as [Hd Ht].
    rewrite andb_true_iff, <- (chars_agree_spec d Hd c), <- (IH t Ht).
    split.
    + intros E. injection E as E1 E2. split; assumption.
    + intros [E1 E2]. rewrite E1, E2. reflexivity.
Qed.

Lemma admin_chars_agree : forallb chars_agree (list_ascii_of_string "admin") = true.
Proof. vm_compute. reflexivity. Qed.

End LoginProofs.

(** C9.  Login returns early exactly when the trimmed nickname is empty;
    otherwise the user joins under the trimmed nickname, and the admin
    flag is [true] if and only if the trimmed nickname equals "admin"
    case-insensitively and the password is "wetlands" ([false] for every
    other combination). *)
Theorem login_admin_iff (nickname password : string) :
  (Login.trim nickname = "" -> Login.handleSubmit nickname password = None) /\
  (Login.trim nickname <> "" ->
   exists adm,
     Login.handleSubmit nickname password = Some (Login.trim nickname, adm) /\
     (adm = true <->
      Login.ci_eq (Login.trim nickname) "admin" = true /\ password = "wetlands")).
Proof.
  unfold Login.handleSubmit.
  destruct (String.eqb_spec (Login.trim nickname) "") as [E|E].
  - split; [reflexivity | intros H; contradiction].
  - split; [intros H; contradiction|].
    intros _. eexists. split; [reflexivity|].
    rewrite andb_true_iff, String.eqb_eq, String.eqb_eq.
    rewrite (toLowerCase_ci _ _ admin_chars_agree).
    unfold Login.ADMIN_PASSWORD. reflexivity.
Qed.

(** ** C2: the version after a successful push *)

(** C2 (as amended).  A successful push sets the current version to the
    version it wrote: the previous current version plus one in the counter
    variants (types.ts pushToCloud, part_004 pushData), and the clock
    reading taken at push time in App.tsx's admin-gated variant. *)
Theorem push_success_sets_version :
  (forall s cd now s1 p now' resp,
     V19.pushToCloud_enter s cd now = (s1, Some p) -> resp_ok resp = true ->
     V19.currentV (V19.pushToCloud_settle s1 p now' resp) = V19.currentV s + 1) /\
  (forall s fd now s1 p now' resp,
     P004.pushData_enter s fd now = (s1, Some p) -> resp_ok resp = true ->
     P004.currentVersion (P004.pushData_settle s1 p now' resp)
     = P004.currentVersion s + 1) /\
  (forall s now s1 p now' resp,
     V9.pushToCloud_enter s now = (s1, Some p) -> resp_ok resp = true ->
     V9.currentVersion (V9.pushToCloud_settle s1 p now' resp) = now).
Proof.
  split; [|split].
  - intros s cd now s1 p now' resp He Hok.
    unfold V19.pushToCloud_enter in He.
    destruct (V19.isSyncing s || negb (V19.online s)).
    + destruct (negb (V19.online s)); discriminate.
    + destruct cd as [[[t c] l]|]; injection He as <- <-;
        unfold V19.pushToCloud_settle; rewrite Hok; reflexivity.
  - intros s fd now s1 p now' resp He Hok.
    unfold P004.pushData_enter in He.
    destruct (P004.syncLock s || negb (P004.online s)); [discriminate|].
    destruct fd as [[[t c] l]|]; injection He as <- <-;
      unfold P004.pushData_settle; rewrite Hok; reflexivity.
  - intros s now s1 p now' resp He Hok.
    unfold V9.pushToCloud_enter in He.
    destruct (negb (V9.is_admin s) || V9.isLocked s); [discriminate|].
    injection He as <- <-. unfold V9.pushToCloud_settle. rewrite Hok. reflexivity.
Qed.

(** C2 fails as stated: from a reachable admin session whose current
    version 2000 was adopted from a remote snapshot stamped by a faster
    clock, a successful push at clock 1000 lowers the current version to
    1000. *)
Lemma push_version_can_decrease :
  V9.reachable (v9_after_pull, []) /\
  V9.currentVersion v9_after_pull = 2000 /\
  exists s1 p,
    V9.pushToCloud_enter v9_after_pull 1000 = (s1, Some p) /\
    resp_ok (HttpResponse 200 BEmpty) = true /\
    V9.currentVersion (V9.pushToCloud_settle s1 p 1000 (HttpResponse 200 BEmpty)) = 1000.
Proof.
  split; [|split; [reflexivity|]].
  - apply (V9.reach_step (v9_boot, [V9.OpPull])).
    + apply (V9.reach_step (v9_boot, [])).
      * apply V9.reach_boot.
      * apply (V9.step_pull_start v9_boot v9_boot [] true). reflexivity.
    + apply (V9.step_pull_end v9_boot v9_after_pull [] [] 1000
               (HttpResponse 200 (BJson r2000))).
      reflexivity.
  - do 2 eexists. split; [reflexivity|]. split; reflexivity.
Qed.

(** ** C3: the activity-log cap *)


Section LogWindow.
Context {S E : Type} (logs_of : S -> list ActivityLog) (handle : S -> E -> S)
  (entry : S -> E -> option ActivityLog).
Hypothesis handle_logs : forall s ev,
  logs_of (handle s ev) =
    match entry s ev with None => logs_of s | Some e => slice50 (e :: logs_of s) end.


End LogWindow.

Lemma V13_addLog_logs s user rid now tid ttl act t c l :
  V13.logs (fst (V13.addLog s user rid now tid ttl act t c l)) =
    slice50 (V13.newLog user rid now tid ttl act :: l).
Proof.
  unfold V13.addLog, V13.handleUpdate_enter, V13.broadcast_enter. cbn [V13.online V13.isSyncing].
  destruct (negb (V13.online s) || V13.isSyncing s); reflexivity.
Qed.


Lemma V11_createLog_logs s rid now tid ttl act t c l :
  V11.logs (fst (V11.createLog s rid now tid ttl act t c l)) =
    slice50 (V11.newLog s rid now tid ttl act :: l).
Proof.
  unfold V11.createLog, V11.handleDataUpdate, V11.broadcast_enter. cbn [V11.syncBusy].
  destruct (V11.syncBusy s); reflexivity.
Qed.


Lemma V19_addActivity_logs s rid now tid ttl act t c l :
  V19.logs (fst (V19Log.addActivity s rid now tid ttl act t c l)) =
    slice50 (V19Log.newLog s rid now tid ttl act :: l).
Proof.
  unfold V19Log.addActivity, V19.handleDataChange_enter, V19.pushToCloud_enter.
  cbn [V19.isSyncing V19.online V19.set_pendingPush V19.set_data].
  destruct (V19.isSyncing s || negb (V19.online s)); [|reflexivity].
  destruct (negb (V19.online s)); reflexivity.
Qed.






(** ** C5: the busy flag *)

Section LockProofs.
Import V9.

Lemma push_enter_lock s now s' o :
  pushToCloud_enter s now = (s', o) ->
  match o with
  | None => s' = s
  | Some _ => isLocked s = false /\ isLocked s' = true
  end.
Proof.
  unfold pushToCloud_enter. destruct (negb (is_admin s) || isLocked s) eqn:E;
    intros H; injection H as <- <-; [reflexivity|].
  apply orb_false_iff in E as [_ E]. split; [exact E | reflexivity].
Qed.

Lemma pull_enter_lock s sil s' :
  syncFromCloud_enter s sil = Some s' -> isLocked s' = isLocked s.
Proof.
  unfold syncFromCloud_enter.
  destruct (isLocked s || negb (online s) || (hasUnsavedChanges s && is_admin s));
    [discriminate|].
  intros H; injection H as <-. destruct sil; reflexivity.
Qed.

Lemma pull_settle_lock s now resp s' o :
  syncFromCloud_settle s now resp = (s', o) ->
  match o with
  | None => isLocked s' = isLocked s
  | Some _ => isLocked s = false /\ isLocked s' = true
  end.
Proof.
  unfold syncFromCloud_settle.
  destruct resp as [|code b]; [intros H; injection H as <- <-; reflexivity|].
  destruct (code =? 404).
  - destruct (is_admin s && (0 <? Z.of_nat (length (tasks s)))).
    + destruct (pushToCloud_enter s now) as [s1 p] eqn:E.
      intros H; injection H as <- <-. apply push_enter_lock in E.
      destruct p; [exact E | subst; reflexivity].
    + intros H; injection H as <- <-; reflexivity.
  - destruct (negb (code_ok code)); [intros H; injection H as <- <-; reflexivity|].
    destruct b as [|r|];
      [ | destruct (currentVersion s <? version r) | ];
      intros H; injection H as <- <-; reflexivity.
Qed.

Lemma push_settle_unlocks s p now resp : isLocked (pushToCloud_settle s p now resp) = false.
Proof. unfold pushToCloud_settle. destruct (resp_ok resp); reflexivity. Qed.

Lemma applyLocalUpdates_lock s t c l : isLocked (applyLocalUpdates s t c l) = isLocked s.
Proof. unfold applyLocalUpdates. destruct (negb (is_admin s)); reflexivity. Qed.

Lemma handlers_keep_lock s :
  (forall tid u now rid, isLocked (handleUpdateTask s tid u now rid) = isLocked s) /\
  (forall tid cf now rid, isLocked (handleDeleteTask s tid cf now rid) = isLocked s) /\
  (forall d et now r1 r2, isLocked (handleFormSubmit s d et now r1 r2) = isLocked s).
Proof.
  split; [|split]; intros.
  - unfold handleUpdateTask. destruct (negb (is_admin s)); [reflexivity|].
    apply applyLocalUpdates_lock.
  - unfold handleDeleteTask. destruct (negb (is_admin s)); [reflexivity|].
    destruct (find_task (tasks s) tid); [|reflexivity].
    destruct (negb cf); [reflexivity|]. apply applyLocalUpdates_lock.
  - unfold handleFormSubmit. destruct (negb (is_admin s)); [reflexivity|].
    apply applyLocalUpdates_lock.
Qed.

Lemma push_count_app ops1 ops2 :
  push_count (ops1 ++ ops2) = (push_count ops1 + push_count ops2)%nat.
Proof.
  induction ops1 as [|[|p] r IH]; simpl; [reflexivity | exact IH | rewrite IH; reflexivity].
Qed.

Definition lock_inv (c : Config) : Prop :=
  push_count (snd c) = if isLocked (fst c) then 1%nat else 0%nat.

Lemma lock_inv_reachable c : reachable c -> lock_inv c.
Proof.
  unfold lock_inv. induction 1 as [session cache initial on rem|c c' Hr IH Hs].
  - destruct cache; reflexivity.
  - destruct Hs; simpl in *.
    + apply pull_enter_lock in H. rewrite H. exact IH.
    + apply push_enter_lock in H as [H1 H2]. rewrite H1 in IH. rewrite H2, IH. reflexivity.
    + apply pull_settle_lock in H. rewrite H. rewrite push_count_app in *. exact IH.
    + apply pull_settle_lock in H as [H1 H2]. rewrite H1 in IH. rewrite H2.
      rewrite push_count_app in *. simpl in *. rewrite IH. reflexivity.
    + rewrite push_count_app in *. simpl in IH.
      destruct (isLocked s); lia.
    + rewrite (proj1 (handlers_keep_lock s)). exact IH.
    + rewrite (proj1 (proj2 (handlers_keep_lock s))). exact IH.
    + rewrite (proj2 (proj2 (handlers_keep_lock s))). exact IH.
    + exact IH.
    + exact IH.
Qed.

End LockProofs.

Ltac take_flag_tac :=
  let H := fresh "H" in let E := fresh "E" in
  intros *; intros H;
  match type of H with
  | context [if ?b then _ else _] => destruct b eqn:E
  end;
  [ discriminate
  | injection H as <- _; repeat rewrite orb_false_iff in E; intuition ].

(** C5 (as amended).  Each variant guards its push with a busy flag
    ([isLocked] in App.tsx's admin-gated component, [isSyncing] in
    App.tsx's second and third components and in types.ts's second
    component, [syncBusy] in types.ts's first component, [syncLock] in
    part_004).  A push that issues its request found the flag free and
    takes it.  A push that finds the flag held issues nothing: it returns
    the state unchanged, except in App.tsx's third component, which still
    writes localStorage and the lastUpdate timestamp, and in types.ts's
    second component, which sets pendingPush (and the status 'local-only'
    when offline).  Every push releases the flag when its request
    settles, on every outcome.  A pull start never changes the flag, and
    it skips while the flag is held, except a manual pull in types.ts's
    first component, which always starts; types.ts's second component's
    pull clears the flag when it settles.  In App.tsx's admin-gated
    component, whose pull takes no lock, at most one push is outstanding
    in every reachable interleaving, and the flag is held exactly while
    one is. *)
Theorem busy_flag_serialises_pushes :
  (* App.tsx, admin-gated component *)
  ((forall c, V9.reachable c ->
      V9.push_count (snd c) = (if V9.isLocked (fst c) then 1 else 0)%nat /\
      (V9.push_count (snd c) <= 1)%nat) /\
   (forall s now s' p, V9.pushToCloud_enter s now = (s', Some p) ->
      V9.isLocked s = false /\ V9.isLocked s' = true) /\
   (forall s now, V9.isLocked s = true -> V9.pushToCloud_enter s now = (s, None)) /\
   (forall s p now resp, V9.isLocked (V9.pushToCloud_settle s p now resp) = false) /\
   (forall s sil, V9.isLocked s = true -> V9.syncFromCloud_enter s sil = None) /\
   (forall s sil s', V9.syncFromCloud_enter s sil = Some s' -> V9.isLocked s' = V9.isLocked s))
  /\
  (* types.ts, second component *)
  ((forall s cd now s' p, V19.pushToCloud_enter s cd now = (s', Some p) ->
      V19.isSyncing s = false /\ V19.isSyncing s' = true) /\
   (forall s cd now, V19.isSyncing s = true ->
      V19.pushToCloud_enter s cd now =
        ((if negb (V19.online s)
          then V19.set_syncState (V19.set_pendingPush s true) V19.LocalOnly
          else V19.set_pendingPush s true), None)) /\
   (forall s p now resp, V19.isSyncing (V19.pushToCloud_settle s p now resp) = false) /\
   (forall s sil, V19.isSyncing s = true -> V19.fetchCloudData_enter s sil = None) /\
   (forall s sil s', V19.fetchCloudData_enter s sil = Some s' ->
      V19.isSyncing s' = V19.isSyncing s) /\
   (forall s sil now resp presp,
      V19.isSyncing (V19.fetchCloudData_settle s sil now resp presp) = false))
  /\
  (* App.tsx, second component *)
  ((forall s now s' p, V6Sync.pushToCloud_enter s now = (s', Some p) ->
      V6.isSyncing s = false /\ V6.isSyncing s' = true) /\
   (forall s now, V6.isSyncing s = true -> V6Sync.pushToCloud_enter s now = (s, None)) /\
   (forall s p resp, V6.isSyncing (V6Sync.pushToCloud_settle s p resp) = false) /\
   (forall s m, V6.isSyncing s = true -> V6Sync.pullFromCloud_enter s m = None) /\
   (forall s m s', V6Sync.pullFromCloud_enter s m = Some s' -> V6.isSyncing s' = V6.isSyncing s))
  /\
  (* App.tsx, third component *)
  ((forall s t c l now s' p, V13.broadcast_enter s t c l now = (s', Some p) ->
      V13.isSyncing s = false /\ V13.isSyncing s' = true) /\
   (forall s t c l now, V13.isSyncing s = true ->
      V13.broadcast_enter s t c l now =
        (V13.mkState (V13.tasks s) (V13.categories s) (V13.logs s) (V13.syncStatus s) now
           true (Some (t, c, l, now)) (V13.online s), None)) /\
   (forall s resp, V13.isSyncing (V13Sync.core (V13Sync.broadcast_settle s resp)) = false) /\
   (forall s m, V13.isSyncing (V13Sync.core s) = true -> V13Sync.pull_enter s m = None) /\
   (forall s m s', V13Sync.pull_enter s m = Some s' ->
      V13.isSyncing (V13Sync.core s') = V13.isSyncing (V13Sync.core s)))
  /\
  (* types.ts, first component *)
  ((forall s t c l now s' p, V11.broadcast_enter s t c l now = (s', Some p) ->
      V11.syncBusy s = false /\ V11.syncBusy s' = true) /\
   (forall s t c l now, V11.syncBusy s = true -> V11.broadcast_enter s t c l now = (s, None)) /\
   (forall s p resp, V11.syncBusy (V11Sync.core (V11Sync.broadcast_settle s p resp)) = false) /\
   (forall s, V11.syncBusy (V11Sync.core s) = true -> V11Sync.pull_enter s false = None) /\
   (forall s, exists s', V11Sync.pull_enter s true = Some s') /\
   (forall s m s', V11Sync.pull_enter s m = Some s' ->
      V11.syncBusy (V11Sync.core s') = V11.syncBusy (V11Sync.core s)))
  /\
  (* part_004 *)
  ((forall s fd now s' p, P004.pushData_enter s fd now = (s', Some p) ->
      P004.syncLock s = false /\ P004.syncLock s' = true) /\
   (forall s fd now, P004.syncLock s = true -> P004.pushData_enter s fd now = (s, None)) /\
   (forall s p now resp, P004.syncLock (P004.pushData_settle s p now resp) = false) /\
   (forall s sil, P004.syncLock s = true -> P004.pullData_enter s sil = None) /\
   (forall s sil s', P004.pullData_enter s sil = Some s' -> P004.syncLock s' = P004.syncLock s)).
Proof.
  split; [|split; [|split; [|split; [|split]]]].
  - (* V9 *)
    split; [|split; [|split; [|split; [|split]]]].
    + intros c Hr. pose proof (lock_inv_reachable c Hr) as H. unfold lock_inv in H.
      split; [exact H|]. rewrite H. destruct (V9.isLocked (fst c)); lia.
    + intros s now s' p H. exact (push_enter_lock s now s' (Some p) H).
    + intros s now H. unfold V9.pushToCloud_enter. rewrite H, orb_true_r. reflexivity.
    + apply push_settle_unlocks.
    + intros s sil H. unfold V9.syncFromCloud_enter. rewrite H. reflexivity.
    + intros s sil s' H. exact (pull_enter_lock s sil s' H).
  - (* V19 *)
    split; [|split; [|split; [|split; [|split]]]].
    + intros s cd now s' p H. unfold V19.pushToCloud_enter in H.
      destruct (V19.isSyncing s || negb (V19.online s)) eqn:E;
        [destruct (negb (V19.online s)); discriminate|].
      destruct (match cd with Some d => d | None => _ end) as [[t c] l].
      injection H as <- _. apply orb_false_iff in E as [E _]. split; [exact E | reflexivity].
    + intros s cd now H. unfold V19.pushToCloud_enter. rewrite H. reflexivity.
    + intros s p now resp. unfold V19.pushToCloud_settle.
      destruct (resp_ok resp); reflexivity.
    + intros s sil H. unfold V19.fetchCloudData_enter. rewrite H. reflexivity.
    + intros s sil s' H. unfold V19.fetchCloudData_enter in H.
      destruct (V19.isSyncing s || negb (V19.online s)); [discriminate|].
      injection H as <-. destruct sil; reflexivity.
    + intros. unfold V19.fetchCloudData_settle. reflexivity.
  - (* V6 *)
    split; [|split; [|split; [|split]]].
    + unfold V6Sync.pushToCloud_enter. take_flag_tac.
    + intros s now H. unfold V6Sync.pushToCloud_enter. rewrite H. reflexivity.
    + intros s p resp. unfold V6Sync.pushToCloud_settle.
      destruct (resp_ok resp); reflexivity.
    + intros s m H. unfold V6Sync.pullFromCloud_enter. rewrite H. reflexivity.
    + intros s m s' H. unfold V6Sync.pullFromCloud_enter in H.
      destruct (V6.isSyncing s) eqn:E; [discriminate|]. injection H as <-. exact E.
  - (* V13 *)
    split; [|split; [|split; [|split]]].
    + unfold V13.broadcast_enter. take_flag_tac.
    + intros s t c l now H. unfold V13.broadcast_enter. rewrite H, orb_true_r. reflexivity.
    + intros s resp. unfold V13Sync.broadcast_settle. destruct (resp_ok resp); reflexivity.
    + intros s m H. unfold V13Sync.pull_enter. rewrite H. reflexivity.
    + intros s m s' H. unfold V13Sync.pull_enter in H.
      destruct (V13.isSyncing (V13Sync.core s) || negb (V13.online (V13Sync.core s)));
        [discriminate|]. injection H as <-. reflexivity.
  - (* V11 *)
    split; [|split; [|split; [|split; [|split]]]].
    + unfold V11.broadcast_enter. take_flag_tac.
    + intros s t c l now H. unfold V11.broadcast_enter. rewrite H. reflexivity.
    + intros s p resp. unfold V11Sync.broadcast_settle. destruct (resp_ok resp); reflexivity.
    + intros s H. unfold V11Sync.pull_enter. rewrite H. reflexivity.
    + intros s. unfold V11Sync.pull_enter. rewrite andb_false_r. eexists. reflexivity.
    + intros s m s' H. unfold V11Sync.pull_enter in H.
      destruct (V11.syncBusy (V11Sync.core s) && negb m); [discriminate|].
      injection H as <-. reflexivity.
  - (* P004 *)
    split; [|split; [|split; [|split]]].
    + intros s fd now s' p H. unfold P004.pushData_enter in H.
      destruct (P004.syncLock s || negb (P004.online s)) eqn:E; [discriminate|].
      destruct (match fd with Some d => d | None => _ end) as [[t c] l].
      injection H as <- _. apply orb_false_iff in E as [E _]. split; [exact E | reflexivity].
    + intros s fd now H. unfold P004.pushData_enter. rewrite H. reflexivity.
    + intros s p now resp. unfold P004.pushData_settle. destruct (resp_ok resp); reflexivity.
    + intros s sil H. unfold P004.pullData_enter. rewrite H. reflexivity.
    + intros s sil s' H. unfold P004.pullData_enter in H.
      destruct (P004.syncLock s || negb (P004.online s) || P004.hasPendingChanges s);
        [discriminate|]. injection H as <-. destruct sil; reflexivity.
Qed.

(** C5 fails as stated: in App.tsx's admin-gated variant a pull does not
    take the busy flag, so an admin's push can start while a pull is
    outstanding, leaving two sync operations in flight. *)
Lemma pull_and_push_in_flight :
  exists c, V9.reachable c /\ length (snd c) = 2%nat /\
            In V9.OpPull (snd c) /\ (V9.push_count (snd c) = 1)%nat.
Proof.
  destruct (V9.pushToCloud_enter v9_boot 1000) as [s1 [p|]] eqn:E;
    [|vm_compute in E; discriminate].
  exists (s1, [V9.OpPush p; V9.OpPull]). split; [|split; [reflexivity | split; [simpl; auto | reflexivity]]].
  apply (V9.reach_step (v9_boot, [V9.OpPull])).
  - apply (V9.reach_step (v9_boot, [])); [apply V9.reach_boot|].
    apply (V9.step_pull_start v9_boot v9_boot [] true). reflexivity.
  - apply V9.step_push_start with (now := 1000). exact E.
Qed.


(** ** C4: the local write of a mutation *)

(** In App.tsx's third component the mutate entry point writes the new
    snapshot to localStorage before checking the network or the busy flag. *)
Lemma v13_update_caches_first s t c l now :
  V13.cache (fst (V13.handleUpdate_enter s t c l now)) = Some (t, c, l, now) /\
  V13.tasks (fst (V13.handleUpdate_enter s t c l now)) = t.
Proof.
  unfold V13.handleUpdate_enter, V13.broadcast_enter. simpl.
  destruct (negb (V13.online s) || V13.isSyncing s); split; reflexivity.
Qed.

(** C4 (types.ts handleDataChange).  The mutate entry point replaces the
    in-memory snapshot, but its synchronous part leaves the local cache
    (localStorage[STORAGE_KEYS.DATA]) as it was, and so does the whole
    call when the push fails with a network error or timeout: only a
    successful PUT writes the cache. *)
Theorem mutate_defers_local_store :
  (forall s t c l now,
     V19.tasks (fst (V19.handleDataChange_enter s t c l now)) = t /\
     V19.categories (fst (V19.handleDataChange_enter s t c l now)) = c /\
     V19.logs (fst (V19.handleDataChange_enter s t c l now)) = l /\
     V19.cache (fst (V19.handleDataChange_enter s t c l now)) = V19.cache s) /\
  (forall s t c l now,
     V19.tasks (V19.handleDataChange s t c l now NetworkError) = t /\
     V19.cache (V19.handleDataChange s t c l now NetworkError) = V19.cache s).
Proof.
  split.
  - intros s t c l now.
    unfold V19.handleDataChange_enter, V19.pushToCloud_enter. simpl.
    destruct (V19.isSyncing s || negb (V19.online s));
      [destruct (negb (V19.online s))|]; repeat split.
  - intros s t c l now.
    unfold V19.handleDataChange, V19.pushToCloud, V19.pushToCloud_enter. simpl.
    destruct (V19.isSyncing s || negb (V19.online s));
      [destruct (negb (V19.online s))|]; split; reflexivity.
Qed.

(** ** C6: a failed push *)

(** C6 (as amended).  A failed push (non-2xx, network error or timeout)
    ends normally: in App.tsx's admin-gated variant with status [Error],
    the unsaved-changes flag and the current version as before the push
    and the lock released; but that variant's heartbeat tick does not run
    while an admin has unsaved changes.  In the types.ts counter variant
    the status becomes [LocalOnly], the pending-push flag is set and the
    current version is unchanged, so the next sync tick sends a push. *)
Theorem failed_push_effects :
  (forall s now s1 p now' resp,
     V9.pushToCloud_enter s now = (s1, Some p) -> resp_ok resp = false ->
     let s' := V9.pushToCloud_settle s1 p now' resp in
     V9.syncStatus s' = V9.Error /\ V9.hasUnsavedChanges s' = V9.hasUnsavedChanges s /\
     V9.currentVersion s' = V9.currentVersion s /\ V9.isLocked s' = false) /\
  (forall s, V9.hasUnsavedChanges s = true -> V9.is_admin s = true ->
     V9.heartbeat_enter s = None) /\
  (forall s cd now s1 p now' resp now'',
     V19.pushToCloud_enter s cd now = (s1, Some p) -> resp_ok resp = false ->
     let s' := V19.pushToCloud_settle s1 p now' resp in
     V19.syncState s' = V19.LocalOnly /\ V19.pendingPush s' = true /\
     V19.currentV s' = V19.currentV s /\ V19.isSyncing s' = false /\
     exists p', snd (V19.syncPulse_enter s' now'') = ReqPut p').
Proof.
  split; [|split].
  - intros s now s1 p now' resp He Hok. cbv zeta.
    unfold V9.pushToCloud_enter in He.
    destruct (negb (V9.is_admin s) || V9.isLocked s); [discriminate|].
    injection He as <- <-. unfold V9.pushToCloud_settle. rewrite Hok.
    repeat split.
  - intros s Hu Ha. unfold V9.heartbeat_enter, V9.syncFromCloud_enter.
    rewrite Hu, Ha, !orb_true_r. reflexivity.
  - intros s cd now s1 p now' resp now'' He Hok. cbv zeta.
    unfold V19.pushToCloud_enter in He.
    destruct (V19.isSyncing s || negb (V19.online s)) eqn:G.
    + destruct (negb (V19.online s)); discriminate.
    + apply orb_false_elim in G as [G1 G2].
      destruct cd as [[[t c] l]|]; injection He as <- <-;
        unfold V19.pushToCloud_settle; rewrite Hok;
        (split; [reflexivity | split; [reflexivity | split; [reflexivity | split; [reflexivity|]]]]);
        unfold V19.syncPulse_enter, V19.pushToCloud_enter; simpl; rewrite G2;
        eexists; reflexivity.
Qed.

(** ** C7: a task update naming a missing id *)

Lemma map_update_missing ts tid u now :
  find_task ts tid = None -> map_update ts tid u now = ts.
Proof.
  induction ts as [|t ts IH]; simpl; [reflexivity|].
  destruct (String.eqb (id t) tid); [discriminate|].
  intros H. f_equal. apply IH. exact H.
Qed.

(** C7 (as amended).  Updating a task list with an id that matches no
    task returns the list unchanged, and types.ts updateTask then does
    nothing at all; but part_004 onUpdateTask and App.tsx's admin-gated
    handleUpdateTask still prepend a log entry titled "Unknown" and mark
    the data as changed. *)
Theorem missing_id_update :
  (forall ts tid u now, find_task ts tid = None -> map_update ts tid u now = ts) /\
  (forall s tid u now rid, find_task (V11.tasks s) tid = None ->
     V11.updateTask s tid u now rid = (s, None)) /\
  (forall s tid u now rid, find_task (P004.tasks s) tid = None ->
     let s' := fst (P004.onUpdateTask s tid u now rid) in
     P004.tasks s' = P004.tasks s /\ P004.hasPendingChanges s' = true /\
     exists e, P004.logs s' = e :: P004.logs s /\ taskTitle e = "Unknown") /\
  (forall s tid u now rid, V9.is_admin s = true -> find_task (V9.tasks s) tid = None ->
     let s' := V9.handleUpdateTask s tid u now rid in
     V9.tasks s' = V9.tasks s /\ V9.hasUnsavedChanges s' = true /\
     exists e, V9.logs s' = e :: V9.logs s /\ taskTitle e = "Unknown").
Proof.
  split; [|split; [|split]].
  - exact map_update_missing.
  - intros s tid u now rid H. unfold V11.updateTask. rewrite H. reflexivity.
  - intros s tid u now rid H. cbv zeta.
    unfold P004.onUpdateTask, P004.handleApplyChange_enter, P004.pushData_enter.
    rewrite H, (map_update_missing _ _ _ _ H). simpl.
    destruct (P004.syncLock s || negb (P004.online s)); simpl;
      (split; [reflexivity | split; [reflexivity | eexists; split; reflexivity]]).
  - intros s tid u now rid Ha H. cbv zeta.
    unfold V9.handleUpdateTask, V9.applyLocalUpdates.
    rewrite Ha, H, (map_update_missing _ _ _ _ H). simpl.
    split; [reflexivity | split; [reflexivity | eexists; split; reflexivity]].
Qed.

(** C7 fails as stated: in part_004 an update of a missing id still adds
    a log entry, marks pending changes and issues a push. *)
Lemma missing_id_update_logs :
  P004.tasks (fst (P004.onUpdateTask p004_idle "missing-id" u_completed 7 "r"))
    = P004.tasks p004_idle /\
  P004.logs (fst (P004.onUpdateTask p004_idle "missing-id" u_completed 7 "r"))
    <> P004.logs p004_idle /\
  P004.hasPendingChanges (fst (P004.onUpdateTask p004_idle "missing-id" u_completed 7 "r"))
    = true /\
  snd (P004.onUpdateTask p004_idle "missing-id" u_completed 7 "r") <> None.
Proof.
  split; [reflexivity|]. split; [vm_compute; intros E; discriminate E|].
  split; [reflexivity | vm_compute; intros E; discriminate E].
Qed.

(** C6 fails as stated: in App.tsx's admin-gated variant, after an admin
    edit whose push fails with a network error, the state is reachable,
    has unsaved changes and status [Error], and the heartbeat tick issues
    nothing (it only ever pulls); no later tick re-attempts the push. *)
Lemma failed_push_not_retried :
  V9.reachable (v9_failed_push, []) /\
  V9.hasUnsavedChanges v9_failed_push = true /\
  V9.syncStatus v9_failed_push = V9.Error /\
  V9.heartbeat_enter v9_failed_push = None.
Proof.
  split; [|split; [reflexivity | split; reflexivity]].
  unfold v9_failed_push, V9.pushToCloud.
  destruct (V9.pushToCloud_enter v9_after_edit 10) as [s1 [p|]] eqn:E;
    [|vm_compute in E; discriminate].
  apply (V9.reach_step (s1, [V9.OpPush p])).
  - apply (V9.reach_step (v9_after_edit, [])).
    + apply (V9.reach_step (v9_boot, [])); [apply V9.reach_boot|].
      apply V9.step_update.
    + apply V9.step_push_start with (now := 10). exact E.
  - apply (V9.step_push_end s1 [] [] p 10 NetworkError).
Qed.

(** ** C8: the action label of a task update *)

Lemma TaskStatus_eqb_refl a : TaskStatus_eqb a a = true.
Proof. destruct a; reflexivity. Qed.

Lemma TaskStatus_eqb_neq a b : a <> b -> TaskStatus_eqb a b = false.
Proof. destruct a, b; intros H; try reflexivity; contradiction H; reflexivity. Qed.

Ltac label_rule_tac label :=
  split; [|split; [|split]];
  [ intros task u1 u2 Hs Ha; unfold label; rewrite Hs, Ha; reflexivity
  | intros task u st Hs Hne; unfold label; rewrite Hs, (TaskStatus_eqb_neq _ _ Hne);
    reflexivity
  | intros task u a [Hs|Hs] Ha; unfold label; rewrite Hs;
      [|rewrite TaskStatus_eqb_refl]; rewrite Ha; reflexivity
  | intros task u [Hs|Hs] Ha; unfold label; rewrite Hs;
      [|rewrite TaskStatus_eqb_refl]; rewrite Ha; reflexivity ].

(** C8 (as amended).  In App.tsx's second and third components and in
    types.ts's first component the label of a task update depends on the
    status and assignee fields of the update only: a status change gives
    "status: ", "moved to " or "changed status to " and the status,
    otherwise a present assignee field gives "assigned to " ("assigned
    task to " in types.ts) and the name, otherwise "updated", "updated
    details" or "updated the task details"; that label is the action of
    the entry the update handler logs.  In App.tsx's admin-gated
    component, part_004 and types.ts's second component the logged label
    depends on the status field alone: a present status field, even one
    equal to the current status, gives "set status: ", "changed status
    to " or "durumunu ... yaptı", and otherwise "modified details",
    "updated details" or "güncelledi".  Titles, notes, deadlines and
    categories never select the label. *)
Theorem updateTask_label_fields :
  label_rule V6.updateTask_label "status: " "assigned to " "updated" /\
  label_rule V13.onUpdateTask_label "moved to " "assigned to " "updated details" /\
  label_rule V11.updateTask_label "changed status to " "assigned task to "
    "updated the task details" /\
  (forall s tid u now rid rt task, find_task (V6.tasks s) tid = Some task ->
     option_map action
       (hd_error (V6.logs (V6.handle s (V6.mkEvent (V6.MUpdate tid u) now rid rt))))
     = Some (V6.updateTask_label task u)) /\
  (forall s user tid u now rid task, find_task (V13.tasks s) tid = Some task ->
     option_map action (hd_error (V13.logs (fst (V13.onUpdateTask s user tid u now rid))))
     = Some (V13.onUpdateTask_label task u)) /\
  (forall s tid u now rid task, find_task (V11.tasks s) tid = Some task ->
     option_map action (hd_error (V11.logs (fst (V11.updateTask s tid u now rid))))
     = Some (V11.updateTask_label task u)) /\
  (forall s tid u now rid, V9.is_admin s = true ->
     option_map action (hd_error (V9.logs (V9.handleUpdateTask s tid u now rid)))
     = Some (match upd_status u with
             | Some st => "set status: " ++ TaskStatus_str st
             | None => "modified details"
             end)%string) /\
  (forall s tid u now rid,
     option_map action (hd_error (P004.logs (fst (P004.onUpdateTask s tid u now rid))))
     = Some (match upd_status u with
             | Some st => "changed status to " ++ TaskStatus_str st
             | None => "updated details"
             end)%string) /\
  (forall s tid u now rid task, find_task (V19.tasks s) tid = Some task ->
     option_map action (hd_error (V19.logs (fst (V19Log.onUpdateTask s tid u now rid))))
     = Some (match upd_status u with
             | Some st => "durumunu " ++ TaskStatus_str st ++ " yaptı"
             | None => "güncelledi"
             end)%string).
Proof.
  split; [label_rule_tac V6.updateTask_label|].
  split; [label_rule_tac V13.onUpdateTask_label|].
  split; [label_rule_tac V11.updateTask_label|].
  split; [|split; [|split; [|split; [|split]]]].
  - intros s tid u now rid rt task H. unfold V6.handle, V6.mutation_call, V6.updateTask_call.
    cbn [V6.ev_mut V6.ev_now]. rewrite H. reflexivity.
  - intros s user tid u now rid task H. unfold V13.onUpdateTask. rewrite H.
    rewrite V13_addLog_logs. reflexivity.
  - intros s tid u now rid task H. unfold V11.updateTask. rewrite H.
    rewrite V11_createLog_logs. reflexivity.
  - intros s tid u now rid H. unfold V9.handleUpdateTask, V9.applyLocalUpdates. rewrite H.
    reflexivity.
  - intros s tid u now rid.
    unfold P004.onUpdateTask, P004.handleApplyChange_enter, P004.pushData_enter.
    cbn [P004.syncLock P004.online P004.set_pending_data].
    destruct (P004.syncLock s || negb (P004.online s)); reflexivity.
  - intros s tid u now rid task H. unfold V19Log.onUpdateTask. rewrite H.
    rewrite V19_addActivity_logs. reflexivity.
Qed.

(** C8 fails as stated: renaming [t1] and reassigning it in one update
    has a rename as its highest-priority change, yet both App.tsx and
    types.ts label it as the reassignment, exactly as the reassignment
    alone. *)
Lemma rename_labelled_as_reassignment :
  spec_priority_field t1 u_rename_assign = Some FTitle /\
  spec_priority_field t1 u_assign = Some FAssignee /\
  V6.updateTask_label t1 u_rename_assign = "assigned to Ana" /\
  V6.updateTask_label t1 u_rename_assign = V6.updateTask_label t1 u_assign /\
  option_map action (hd_error (V11.logs (fst (V11.updateTask v11_demo "t1" u_rename_assign 7 "r"))))
    = Some "assigned task to Ana".
Proof. repeat split; vm_compute; reflexivity. Qed.

(** ** C10: non-admin sessions are read-only *)

(** C10.  In App.tsx's admin-gated variant, for a session whose user is
    not an admin (or absent), the task update, task delete and form
    submit handlers, applyLocalUpdates and pushToCloud return the state
    unchanged, and pushToCloud issues no request. *)
Theorem non_admin_read_only (s : V9.State) (Hna : V9.is_admin s = false) :
  (forall tid u now rid, V9.handleUpdateTask s tid u now rid = s) /\
  (forall tid conf now rid, V9.handleDeleteTask s tid conf now rid = s) /\
  (forall data et now r1 r2, V9.handleFormSubmit s data et now r1 r2 = s) /\
  (forall t c l, V9.applyLocalUpdates s t c l = s) /\
  (forall now, V9.pushToCloud_enter s now = (s, None)) /\
  (forall now resp, V9.pushToCloud s now resp = s).
Proof.
  repeat split; intros;
    unfold V9.handleUpdateTask, V9.handleDeleteTask, V9.handleFormSubmit,
      V9.applyLocalUpdates, V9.pushToCloud, V9.pushToCloud_enter;
    rewrite Hna; reflexivity.
Qed.

(** * Witnesses: the theorems applied to concrete inputs *)

(** The spec's pull scenario: remote version 5, local version 3. *)
Lemma pull_adopts_newer_snapshot_witness :
  V19.fetchCloudData_enter v19_idle false = Some v19_idle /\
  snapshot19 (V19.fetchCloudData_settle v19_idle false 1000 (HttpResponse 200 (BJson r5))
                NetworkError) = ([t1], ["PREP"], [], 5) /\
  P004.pullData_enter p004_idle true = Some p004_idle /\
  snapshot004 (P004.pullData_settle p004_idle true 1000 (HttpResponse 200 (BJson r5))
                 NetworkError) = ([t1], ["PREP"], [], 5).
Proof.
  split; [reflexivity|]. split.
  - exact (proj1 pull_adopts_newer_snapshot v19_idle false v19_idle 1000 200 r5
             NetworkError eq_refl eq_refl).
  - split; [reflexivity|].
    exact (proj2 pull_adopts_newer_snapshot p004_idle true p004_idle 1000 200 r5
             NetworkError eq_refl eq_refl).
Defined.

Lemma push_success_sets_version_witness :
  exists s1 p,
    V19.pushToCloud_enter v19_idle None 7 = (s1, Some p) /\
    V19.currentV (V19.pushToCloud_settle s1 p 8 (HttpResponse 200 BEmpty)) = 4.
Proof.
  do 2 eexists. split; [reflexivity|].
  exact (proj1 push_success_sets_version v19_idle None 7 _ _ 8 (HttpResponse 200 BEmpty)
           eq_refl eq_refl).
Defined.


Lemma busy_flag_serialises_pushes_witness :
  V9.isLocked (fst (V9.pushToCloud_enter v9_boot 1000)) = true /\
  V9.pushToCloud_enter (fst (V9.pushToCloud_enter v9_boot 1000)) 2000
    = (fst (V9.pushToCloud_enter v9_boot 1000), None).
Proof.
  split; [reflexivity|].
  exact (proj1 (proj2 (proj2 (proj1 busy_flag_serialises_pushes)))
                  (fst (V9.pushToCloud_enter v9_boot 1000)) 2000 eq_refl).
Defined.

Lemma failed_push_effects_witness :
  exists s1 p,
    V19.pushToCloud_enter v19_idle None 7 = (s1, Some p) /\
    V19.syncState (V19.pushToCloud_settle s1 p 8 NetworkError) = V19.LocalOnly.
Proof.
  do 2 eexists. split; [reflexivity|].
  exact (proj1 (proj2 (proj2 failed_push_effects) v19_idle None 7 _ _ 8 NetworkError 20
                  eq_refl eq_refl)).
Defined.

Lemma missing_id_update_witness :
  find_task (V11.tasks v11_demo) "missing-id" = None /\
  V11.updateTask v11_demo "missing-id" u_completed 7 "r" = (v11_demo, None).
Proof.
  split; [reflexivity|].
  exact (proj1 (proj2 missing_id_update) v11_demo "missing-id" u_completed 7 "r" eq_refl).
Defined.

Lemma updateTask_label_fields_witness :
  Completed <> status t1 /\
  V6.updateTask_label t1 u_completed = "status: Completed".
Proof.
  split; [discriminate|].
  exact (proj1 (proj2 (proj1 updateTask_label_fields)) t1 u_completed Completed eq_refl
           ltac:(discriminate)).
Defined.

Lemma non_admin_read_only_witness :
  V9.is_admin v9_guest = false /\
  V9.handleUpdateTask v9_guest "t1" u_completed 5 "r" = v9_guest.
Proof.
  split; [reflexivity|].
  exact (proj1 (non_admin_read_only v9_guest eq_refl) "t1" u_completed 5 "r").
Defined.

(** * Further properties of the code *)

(** ** Trimming (NicknameModal and TaskFormModal) *)

Section TrimProofs.

Local Abbreviation D := Login.drop_space.

Definition trim_list (l : list ascii) : list ascii := rev (D (rev (D l))).

Lemma drop_space_suffix l : exists pre, l = pre ++ D l.
Proof.
  induction l as [|a l [pre IH]]; simpl; [exists []; reflexivity|].
  destruct (Login.is_js_space a); [exists (a :: pre); simpl; f_equal; exact IH|].
  exists []; reflexivity.
Qed.

Lemma drop_space_head l :
  D l = [] \/ exists c r, D l = c :: r /\ Login.is_js_space c = false.
Proof.
  induction l as [|a l IH]; simpl; [left; reflexivity|].
  destruct (Login.is_js_space a) eqn:E; [exact IH|right; exists a, l; auto].
Qed.

Lemma drop_space_id l :
  (l = [] \/ exists c r, l = c :: r /\ Login.is_js_space c = false) -> D l = l.
Proof. intros [->|(c & r & -> & H)]; simpl; [reflexivity|rewrite H; reflexivity]. Qed.

Lemma trim_list_head l :
  D (trim_list l) = trim_list l.
Proof.
  unfold trim_list.
  destruct (drop_space_suffix (rev (D l))) as [pre Hpre].
  destruct (rev (D (rev (D l)))) as [|c r] eqn:E; [reflexivity|].
  apply drop_space_id. right. exists c, r. split; [reflexivity|].
  assert (HA : D l = c :: r ++ rev pre).
  { rewrite <- (rev_involutive (D l)), Hpre, rev_app_distr, E. reflexivity. }
  destruct (drop_space_head l) as [H0|(c' & r' & H1 & H2)];
    rewrite HA in *; [discriminate|]. injection H1 as <- _. exact H2.
Qed.

Lemma trim_list_idem l : trim_list (trim_list l) = trim_list l.
Proof.
  unfold trim_list at 1. rewrite trim_list_head. unfold trim_list.
  rewrite rev_involutive, drop_space_id by apply drop_space_head. reflexivity.
Qed.

Lemma trim_list_ends l :
  trim_list l = [] \/
  exists c r c' r', trim_list l = c :: r /\ trim_list l = r' ++ [c'] /\
                    Login.is_js_space c = false /\ Login.is_js_space c' = false.
Proof.
  destruct (trim_list l) as [|c r] eqn:E; [left; reflexivity|right].
  assert (Hc : Login.is_js_space c = false).
  { pose proof (trim_list_head l) as H. rewrite E in H. simpl in H.
    destruct (Login.is_js_space c); [|reflexivity].
    pose proof (drop_space_suffix r) as [pre Hp]. rewrite H in Hp.
    apply (f_equal (@length ascii)) in Hp. rewrite length_app in Hp. simpl in Hp. lia. }
  unfold trim_list in E.
  destruct (drop_space_head (rev (D l))) as [H0|(c' & r' & H1 & H2)].
  - rewrite H0 in E. discriminate.
  - rewrite H1 in E. simpl in E. exists c, r, c', (rev r'). split; [reflexivity|].
    split; [symmetry; exact E | split; assumption].
Qed.

Lemma trim_eq s : Login.trim s = string_of_list_ascii (trim_list (list_ascii_of_string s)).
Proof. reflexivity. Qed.

Lemma trim_idem s : Login.trim (Login.trim s) = Login.trim s.
Proof.
  rewrite !trim_eq, list_ascii_of_string_of_list_ascii, trim_list_idem. reflexivity.
Qed.

Lemma trim_ends s :
  Login.trim s = "" \/
  exists c r c' r', list_ascii_of_string (Login.trim s) = c :: r /\
                    list_ascii_of_string (Login.trim s) = r' ++ [c'] /\
                    Login.is_js_space c = false /\ Login.is_js_space c' = false.
Proof.
  rewrite trim_eq, list_ascii_of_string_of_list_ascii.
  destruct (trim_list_ends (list_ascii_of_string s)) as [H|H]; [left|right; exact H].
  rewrite H. reflexivity.
Qed.

End TrimProofs.

(** NicknameModal handleSubmit: the nickname handed to onJoin is never
    empty, starts and ends with a non-whitespace unit, and trimming it
    again leaves it unchanged. *)
Theorem login_nickname_trimmed (nickname password nk : string) (adm : bool)
    (H : Login.handleSubmit nickname password = Some (nk, adm)) :
  nk <> "" /\ Login.trim nk = nk /\
  exists c r c' r', list_ascii_of_string nk = c :: r /\
                    list_ascii_of_string nk = r' ++ [c'] /\
                    Login.is_js_space c = false /\ Login.is_js_space c' = false.
Proof.
  unfold Login.handleSubmit in H.
  destruct (String.eqb (Login.trim nickname) "") eqn:E; [discriminate|].
  injection H as <- _. apply String.eqb_neq in E.
  split; [exact E|]. split; [apply trim_idem|].
  destruct (trim_ends nickname) as [H|H]; [contradiction|exact H].
Qed.

(** TaskFormModal handleSubmit: a blank title submits nothing; a
    submitted form has a non-empty trimmed title, a non-empty category,
    trimmed notes, a deadline that is null exactly when the input was
    empty, and an assignee that is null or a non-empty trimmed name. *)
Theorem form_submit_shape (toUpper : string -> string)
    (title category newCategoryName deadline notes assignee : string) (isNew : bool) :
  (Login.trim title = "" ->
   TaskFormModal.handleSubmit toUpper title category newCategoryName deadline notes
     assignee isNew = TaskFormModal.Ignored) /\
  (forall d, TaskFormModal.handleSubmit toUpper title category newCategoryName deadline
               notes assignee isNew = TaskFormModal.Submitted d ->
   fd_title d <> "" /\ Login.trim (fd_title d) = fd_title d /\ fd_category d <> "" /\
   Login.trim (fd_notes d) = fd_notes d /\
   (fd_deadline d = None <-> deadline = "") /\
   (fd_assignee d = None \/
    exists a, fd_assignee d = Some a /\ a <> "" /\ Login.trim a = a)).
Proof.
  unfold TaskFormModal.handleSubmit. split.
  - intros H. rewrite H. reflexivity.
  - intros d H.
    destruct (String.eqb (Login.trim title) "") eqn:Et; [discriminate|].
    match type of H with
    | (if String.eqb ?fc "" then _ else _) = _ =>
        destruct (String.eqb fc "") eqn:Ec; [discriminate|]
    end.
    injection H as <-. simpl.
    apply String.eqb_neq in Et, Ec.
    split; [exact Et|]. split; [apply trim_idem|]. split; [exact Ec|].
    split; [apply trim_idem|]. split.
    + destruct (String.eqb_spec deadline ""); split; congruence.
    + destruct (String.eqb (Login.trim assignee) "") eqn:Ea; [left; reflexivity|right].
      apply String.eqb_neq in Ea. exists (Login.trim assignee).
      split; [reflexivity|]. split; [exact Ea | apply trim_idem].
Qed.

(** ** Task list helpers shared by every variant's handlers *)

(** [tasks.map(t => t.id === id ? {...t, ...updates} : t)]: the ids, and
    so the number and order of the tasks, are unchanged, and every task
    with another id is left exactly as it was. *)
Theorem map_update_frame (ts : list Task) (tid : string) (u : TaskUpdate) (now : Z) :
  map id (map_update ts tid u now) = map id ts /\
  filter (fun t => negb (String.eqb (id t) tid)) (map_update ts tid u now)
  = filter (fun t => negb (String.eqb (id t) tid)) ts.
Proof.
  unfold map_update.
  induction ts as [|t ts [IH1 IH2]]; [split; reflexivity|].
  cbn [map filter]. destruct (String.eqb (id t) tid) eqn:E; cbn [negb id merge_update].
  - rewrite E. cbn [negb]. split; [f_equal; exact IH1 | exact IH2].
  - rewrite E. cbn [negb]. split; f_equal; assumption.
Qed.

(** [tasks.filter(t => t.id !== id)]: no task with that id is left, the
    others are kept (in order), and a list without the id is returned
    unchanged. *)
Theorem remove_task_spec (ts : list Task) (tid : string) :
  find_task (remove_task ts tid) tid = None /\
  (forall t, In t (remove_task ts tid) <-> In t ts /\ id t <> tid) /\
  (find_task ts tid = None -> remove_task ts tid = ts).
Proof.
  split; [|split].
  - unfold find_task, remove_task.
    induction ts as [|t ts IH]; [reflexivity|]. cbn [filter].
    destruct (String.eqb (id t) tid) eqn:E; cbn [negb]; [exact IH|].
    cbn [find]. rewrite E. exact IH.
  - intros t. unfold remove_task. rewrite filter_In, negb_true_iff, String.eqb_neq.
    reflexivity.
  - unfold find_task, remove_task.
    induction ts as [|t ts IH]; [reflexivity|]. cbn [find filter].
    destruct (String.eqb (id t) tid) eqn:E; [discriminate|]. cbn [negb].
    intros H. f_equal. exact (IH H).
Qed.

Lemma includes_In cats c : includes cats c = true <-> In c cats.
Proof.
  unfold includes. rewrite existsb_exists. split.
  - intros (x & Hx & E). apply String.eqb_eq in E. subst. exact Hx.
  - intros H. exists c. split; [exact H | apply String.eqb_refl].
Qed.

(** [if (!cats.includes(c)) cats.push(c)]: the category is present
    afterwards, the existing categories keep their order, one is appended
    exactly when it was missing, and no duplicate is ever introduced. *)
Theorem add_category_spec (cats : list string) (c : string) :
  In c (add_category cats c) /\
  (NoDup cats -> NoDup (add_category cats c)) /\
  exists suffix, add_category cats c = cats ++ suffix /\
                 (suffix = [] <-> In c cats) /\ (suffix = [] \/ suffix = [c]).
Proof.
  unfold add_category. destruct (includes cats c) eqn:E.
  - apply includes_In in E. split; [exact E|]. split; [auto|].
    exists []. rewrite app_nil_r. split; [reflexivity|]. split; [tauto | left; reflexivity].
  - assert (Hn : ~ In c cats) by (rewrite <- includes_In; congruence).
    split; [apply in_or_app; right; left; reflexivity|]. split.
    + intros Hd. apply NoDup_app; [exact Hd | constructor; [intros []|constructor] |].
      intros a Ha [<-|[]]. contradiction.
    + exists [c]. split; [reflexivity|]. split; [split; [discriminate | contradiction]|].
      right; reflexivity.
Qed.

Lemma V6_handle_categories s ev :
  V6.categories (V6.handle s ev) = V6.categories s \/
  exists c, V6.categories (V6.handle s ev) = add_category (V6.categories s) c.
Proof.
  unfold V6.handle, V6.mutation_call.
  destruct (V6.ev_mut ev) as [tid u|tid conf|d et].
  - unfold V6.updateTask_call. destruct (find_task (V6.tasks s) tid); left; reflexivity.
  - unfold V6.deleteTask_call. destruct (find_task (V6.tasks s) tid); [|left; reflexivity].
    destruct conf; left; reflexivity.
  - unfold V6.handleFormSubmit_call. right. exists (fd_category d).
    destruct et; reflexivity.
Qed.

(** App.tsx (second component): over any sequence of task updates,
    deletes and form submits, no category is removed or reordered, and a
    duplicate-free category list stays duplicate-free. *)
Theorem V6_categories_grow_without_duplicates (s : V6.State) (evs : list V6.Event) :
  (exists suffix, V6.categories (V6.run s evs) = V6.categories s ++ suffix) /\
  (NoDup (V6.categories s) -> NoDup (V6.categories (V6.run s evs))).
Proof.
  revert s. induction evs as [|ev evs IH]; intros s; simpl.
  - split; [exists []; rewrite app_nil_r; reflexivity | auto].
  - destruct (IH (V6.handle s ev)) as [[suf Hs] Hd].
    destruct (V6_handle_categories s ev) as [E|[c E]]; rewrite E in Hs, Hd.
    + split; [exists suf; exact Hs | exact Hd].
    + destruct (add_category_spec (V6.categories s) c) as (_ & Hnd & suf0 & Hsuf & _).
      rewrite Hsuf in Hs, Hd. rewrite <- app_assoc in Hs.
      split; [exists (suf0 ++ suf); exact Hs|].
      intros H. apply Hd. rewrite <- Hsuf. apply Hnd. exact H.
Qed.

(** ** App.tsx, second component: storage mirror and sync status *)

Lemma V6_handleDataChange_mirrored s t c l now :
  V6Sync.mirrored (V6.handleDataChange s t c l now).
Proof. repeat split. Qed.

Lemma V6_handle_mirrored s ev :
  V6Sync.mirrored s -> V6Sync.mirrored (V6.handle s ev).
Proof.
  intros H. unfold V6.handle. destruct (V6.mutation_call s ev); [|exact H].
  apply V6_handleDataChange_mirrored.
Qed.

Lemma V6_set_syncStatus_mirrored s v :
  V6Sync.mirrored s -> V6Sync.mirrored (V6Sync.set_syncStatus s v).
Proof. intros (H1 & H2 & H3 & H4). repeat split; assumption. Qed.

Lemma V6_set_isSyncing_mirrored s b :
  V6Sync.mirrored s -> V6Sync.mirrored (V6Sync.set_isSyncing s b).
Proof. intros (H1 & H2 & H3 & H4). repeat split; assumption. Qed.

Lemma V6_push_enter_mirrored s now :
  V6Sync.mirrored s -> V6Sync.mirrored (fst (V6Sync.pushToCloud_enter s now)).
Proof.
  intros H. unfold V6Sync.pushToCloud_enter. destruct (V6.isSyncing s); [exact H|].
  apply V6_set_syncStatus_mirrored, V6_set_isSyncing_mirrored, H.
Qed.

Lemma V6_push_settle_mirrored s p resp :
  V6Sync.mirrored s -> V6Sync.mirrored (V6Sync.pushToCloud_settle s p resp).
Proof.
  intros H. unfold V6Sync.pushToCloud_settle. apply V6_set_isSyncing_mirrored.
  destruct (resp_ok resp); [|apply V6_set_syncStatus_mirrored, H].
  destruct H as (H1 & H2 & H3 & H4). repeat split; assumption.
Qed.

Lemma V6_push_mirrored s now resp :
  V6Sync.mirrored s -> V6Sync.mirrored (V6Sync.pushToCloud s now resp).
Proof.
  intros H. unfold V6Sync.pushToCloud.
  pose proof (V6_push_enter_mirrored s now H) as H1.
  destruct (V6Sync.pushToCloud_enter s now) as [s1 [p|]]; simpl in H1; [|exact H1].
  apply V6_push_settle_mirrored, H1.
Qed.

(** After any data change the four localStorage keys hold exactly the
    in-memory tasks, categories, logs and lastUpdate, and every sync step
    (push start, push settle, pull start, pull settle, the pull's
    one-second timer) keeps them so. *)
Theorem V6_storage_mirrors_memory :
  (forall s t c l now, V6Sync.mirrored (V6.handleDataChange s t c l now)) /\
  (forall s, V6Sync.mirrored s ->
     (forall ev, V6Sync.mirrored (V6.handle s ev)) /\
     (forall now, V6Sync.mirrored (fst (V6Sync.pushToCloud_enter s now))) /\
     (forall p resp, V6Sync.mirrored (V6Sync.pushToCloud_settle s p resp)) /\
     (forall m s', V6Sync.pullFromCloud_enter s m = Some s' -> V6Sync.mirrored s') /\
     (forall m now resp presp,
        V6Sync.mirrored (V6Sync.pullFromCloud_settle s m now resp presp)) /\
     V6Sync.mirrored (V6Sync.pull_finally_timer s)).
Proof.
  split; [apply V6_handleDataChange_mirrored|].
  intros s H. split; [intros; apply V6_handle_mirrored, H|].
  split; [intros; apply V6_push_enter_mirrored, H|].
  split; [intros; apply V6_push_settle_mirrored, H|].
  split.
  { intros m s' E. unfold V6Sync.pullFromCloud_enter in E.
    destruct (V6.isSyncing s); [discriminate|]. injection E as <-.
    apply V6_set_syncStatus_mirrored, H. }
  split.
  { intros m now resp presp. unfold V6Sync.pullFromCloud_settle.
    destruct resp as [|code b]; [apply V6_set_syncStatus_mirrored, H|].
    destruct (negb (code_ok code)); [apply V6_set_syncStatus_mirrored, H|].
    destruct b as [| [[[t c] l] ts] |].
    - destruct m; [apply V6_push_mirrored, H | apply V6_set_syncStatus_mirrored, H].
    - apply V6_set_syncStatus_mirrored. destruct (V6.lastUpdate s <? ts); [|exact H].
      repeat split.
    - apply V6_set_syncStatus_mirrored, H. }
  unfold V6Sync.pull_finally_timer.
  destruct (V6.syncStatus s); try apply V6_set_syncStatus_mirrored; exact H.
Qed.

(** A 2xx pull carrying a snapshot: the status becomes Synced, the
    lastUpdate reference becomes the larger of the two timestamps, a
    strictly newer snapshot replaces tasks, categories and logs, and an
    older or equally old one changes nothing but the status. *)
Theorem V6_pull_adopts_only_newer (s : V6.State) (isManual : bool) (now code : Z)
    (t : list Task) (c : list string) (l : list ActivityLog) (ts : Z) (presp : Response)
    (Hok : code_ok code = true) :
  let s' := V6Sync.pullFromCloud_settle s isManual now (SHttp code (SJson (t, c, l, ts))) presp in
  V6.syncStatus s' = V6.Synced /\ V6.lastUpdate s' = Z.max (V6.lastUpdate s) ts /\
  V6.isSyncing s' = V6.isSyncing s /\
  (V6.lastUpdate s < ts -> V6.tasks s' = t /\ V6.categories s' = c /\ V6.logs s' = l) /\
  (ts <= V6.lastUpdate s -> s' = V6Sync.set_syncStatus s V6.Synced).
Proof.
  unfold V6Sync.pullFromCloud_settle. rewrite Hok. simpl.
  destruct (Z.ltb_spec (V6.lastUpdate s) ts); simpl.
  - repeat split; try reflexivity; try lia.
  - split; [reflexivity|]. split; [lia|]. split; [reflexivity|]. split; [lia | reflexivity].
Qed.

(** Once the status is Error the 10-second poll no longer pulls, the
    pull's one-second timer leaves it, and every task handler keeps it;
    a failed push, a failed or non-2xx pull and an unparsable body are
    what set it. *)
Theorem V6_error_stops_polling :
  (forall s, V6.syncStatus s = V6.Error ->
     V6Sync.poll_tick s = None /\ V6Sync.pull_finally_timer s = s /\
     forall ev, V6.syncStatus (V6.handle s ev) = V6.Error) /\
  (forall s p resp, resp_ok resp = false ->
     V6.syncStatus (V6Sync.pushToCloud_settle s p resp) = V6.Error) /\
  (forall s m now presp,
     V6.syncStatus (V6Sync.pullFromCloud_settle s m now SNetworkError presp) = V6.Error /\
     V6.syncStatus (V6Sync.pullFromCloud_settle s m now (SHttp 200 SMalformed) presp) = V6.Error /\
     forall code b, code_ok code = false ->
       V6.syncStatus (V6Sync.pullFromCloud_settle s m now (SHttp code b) presp) = V6.Error).
Proof.
  split; [|split].
  - intros s H. unfold V6Sync.poll_tick, V6Sync.pull_finally_timer. rewrite H.
    split; [reflexivity|]. split; [reflexivity|].
    intros ev. unfold V6.handle. destruct (V6.mutation_call s ev); [exact H|exact H].
  - intros s p resp H. unfold V6Sync.pushToCloud_settle. rewrite H. reflexivity.
  - intros s m now presp. split; [reflexivity|]. split; [reflexivity|].
    intros code b H. unfold V6Sync.pullFromCloud_settle. rewrite H. reflexivity.
Qed.

(** ** App.tsx, third component: backoff and local cache *)

Lemma V13_broadcast_settle_backoff s resp :
  V13Sync.backoffCount (V13Sync.broadcast_settle s resp) =
  if resp_ok resp then 0 else V13Sync.backoffCount s + 1.
Proof. unfold V13Sync.broadcast_settle. destruct (resp_ok resp); reflexivity. Qed.

Lemma V13_broadcast_backoff_nonneg s t c l now resp :
  0 <= V13Sync.backoffCount s -> 0 <= V13Sync.backoffCount (V13Sync.broadcast s t c l now resp).
Proof.
  intros H. unfold V13Sync.broadcast.
  destruct (V13.broadcast_enter (V13Sync.core s) t c l now) as [c1 [p|]]; [|exact H].
  rewrite V13_broadcast_settle_backoff. simpl. destruct (resp_ok resp); lia.
Qed.

(** The heartbeat waits 8 s plus 10 s per consecutive failure, capped at
    48 s; the failure count never goes negative, a network error or an
    unparsable body adds one, a non-2xx pull leaves it as it is, and a
    successful push or snapshot pull resets the wait to 8 s. *)
Theorem V13_poll_backoff_bounds :
  (forall s, 0 <= V13Sync.backoffCount s ->
     8000 <= V13Sync.poll_delay s <= 48000 /\
     (4 <= V13Sync.backoffCount s -> V13Sync.poll_delay s = 48000)) /\
  (forall s resp, 0 <= V13Sync.backoffCount s ->
     0 <= V13Sync.backoffCount (V13Sync.broadcast_settle s resp)) /\
  (forall s m now cl resp presp, 0 <= V13Sync.backoffCount s ->
     0 <= V13Sync.backoffCount (V13Sync.pull_settle s m now cl resp presp)) /\
  (forall s resp, resp_ok resp = true ->
     V13Sync.poll_delay (V13Sync.broadcast_settle s resp) = 8000) /\
  (forall s m now cl code d presp, code_ok code = true ->
     V13Sync.poll_delay (V13Sync.pull_settle s m now cl (SHttp code (SJson d)) presp) = 8000) /\
  (forall s m now cl presp,
     V13Sync.backoffCount (V13Sync.pull_settle s m now cl SNetworkError presp) =
       V13Sync.backoffCount s + 1 /\
     forall code, code_ok code = true ->
       V13Sync.backoffCount (V13Sync.pull_settle s m now cl (SHttp code SMalformed) presp) =
         V13Sync.backoffCount s + 1) /\
  (forall s m now cl code b presp, code_ok code = false ->
     V13Sync.backoffCount (V13Sync.pull_settle s m now cl (SHttp code b) presp) =
       V13Sync.backoffCount s /\
     V13.syncStatus (V13Sync.core (V13Sync.pull_settle s m now cl (SHttp code b) presp)) =
       V13.Error).
Proof.
  split; [|split; [|split; [|split; [|split; [|split]]]]].
  - intros s H. unfold V13Sync.poll_delay. split; [lia|]. intros H4. lia.
  - intros s resp H. rewrite V13_broadcast_settle_backoff. destruct (resp_ok resp); lia.
  - intros s m now cl resp presp H. unfold V13Sync.pull_settle.
    destruct resp as [|code b]; simpl; [lia|].
    destruct (code_ok code); simpl; [|exact H].
    destruct b as [| [[[t c] l] ts] |]; simpl; [| lia | lia].
    destruct cl as [[t c] l]. destruct m; [apply V13_broadcast_backoff_nonneg, H | exact H].
  - intros s resp H. unfold V13Sync.poll_delay. rewrite V13_broadcast_settle_backoff, H.
    reflexivity.
  - intros s m now cl code [[[t c] l] ts] presp H. unfold V13Sync.pull_settle.
    rewrite H. reflexivity.
  - intros s m now cl presp. split; [reflexivity|].
    intros code H. unfold V13Sync.pull_settle. rewrite H. reflexivity.
  - intros s m now cl code b presp H. unfold V13Sync.pull_settle. rewrite H.
    split; reflexivity.
Qed.

Lemma V13_set_syncStatus_mirrored s v :
  V13Sync.mirrored s -> V13Sync.mirrored (V13Sync.set_syncStatus s v).
Proof. intros H. exact H. Qed.

Lemma V13_set_isSyncing_mirrored s b :
  V13Sync.mirrored s -> V13Sync.mirrored (V13Sync.set_isSyncing s b).
Proof. intros H. exact H. Qed.

Lemma V13_broadcast_enter_mirrored s now :
  V13Sync.mirrored
    (fst (V13.broadcast_enter s (V13.tasks s) (V13.categories s) (V13.logs s) now)).
Proof.
  unfold V13.broadcast_enter. destruct (negb (V13.online s) || V13.isSyncing s); reflexivity.
Qed.

Lemma V13_broadcast_settle_mirrored s resp :
  V13Sync.mirrored (V13Sync.core s) ->
  V13Sync.mirrored (V13Sync.core (V13Sync.broadcast_settle s resp)).
Proof.
  intros H. unfold V13Sync.broadcast_settle. destruct (resp_ok resp); exact H.
Qed.

Lemma V13_broadcast_core s t c l now resp :
  V13.cache (V13Sync.core (V13Sync.broadcast s t c l now resp)) = Some (t, c, l, now) /\
  V13.lastUpdateTs (V13Sync.core (V13Sync.broadcast s t c l now resp)) = now /\
  V13.tasks (V13Sync.core (V13Sync.broadcast s t c l now resp)) = V13.tasks (V13Sync.core s) /\
  V13.categories (V13Sync.core (V13Sync.broadcast s t c l now resp)) =
    V13.categories (V13Sync.core s) /\
  V13.logs (V13Sync.core (V13Sync.broadcast s t c l now resp)) = V13.logs (V13Sync.core s).
Proof.
  unfold V13Sync.broadcast, V13.broadcast_enter.
  destruct (negb (V13.online (V13Sync.core s)) || V13.isSyncing (V13Sync.core s));
    [repeat split|].
  unfold V13Sync.broadcast_settle. destruct (resp_ok resp); repeat split.
Qed.

(** localStorage's data entry is written before anything else: after
    every handleUpdate it holds the new tasks, categories, logs and the
    lastUpdate timestamp, whether or not the push can start, and the
    push settle and the pull start keep it so.  A pull's settle keeps it
    too, except a manual pull that finds the bucket empty: that one
    caches the data its callback captured, so the cache mirrors memory
    afterwards exactly when the captured data is the current one (it is
    not for the startup pull, which captured the first render's empty
    arrays). *)
Theorem V13_cache_mirrors_memory :
  (forall s t c l now, V13Sync.mirrored (fst (V13.handleUpdate_enter s t c l now))) /\
  (forall s, V13Sync.mirrored (V13Sync.core s) ->
     (forall resp, V13Sync.mirrored (V13Sync.core (V13Sync.broadcast_settle s resp))) /\
     (forall m s', V13Sync.pull_enter s m = Some s' -> V13Sync.mirrored (V13Sync.core s')) /\
     (forall m now cl resp presp,
        (m = true -> (exists code, resp = SHttp code SEmpty /\ code_ok code = true) ->
         cl = (V13.tasks (V13Sync.core s), V13.categories (V13Sync.core s),
               V13.logs (V13Sync.core s))) ->
        V13Sync.mirrored (V13Sync.core (V13Sync.pull_settle s m now cl resp presp))) /\
     (forall now t c l code presp, code_ok code = true ->
        (V13Sync.mirrored
           (V13Sync.core (V13Sync.pull_settle s true now (t, c, l) (SHttp code SEmpty) presp))
         <-> (t, c, l) = (V13.tasks (V13Sync.core s), V13.categories (V13Sync.core s),
                         V13.logs (V13Sync.core s))))).
Proof.
  split.
  { intros s t c l now. unfold V13.handleUpdate_enter.
    apply (V13_broadcast_enter_mirrored (V13.mkState t c l _ _ _ _ _)). }
  intros s H. split; [intros; apply V13_broadcast_settle_mirrored, H|]. split.
  { intros m s' E. unfold V13Sync.pull_enter in E.
    destruct (V13.isSyncing (V13Sync.core s) || negb (V13.online (V13Sync.core s)));
      [discriminate|]. injection E as <-. exact H. }
  split.
  - intros m now cl resp presp Hcl. unfold V13Sync.pull_settle.
    destruct resp as [|code b]; [exact H|].
    destruct (code_ok code) eqn:Hc; simpl negb; cbv iota; [|exact H].
    destruct b as [| [[[t c] l] ts] |]; [| |exact H].
    + destruct cl as [[t c] l].
      apply V13_set_syncStatus_mirrored. destruct m; [|exact H].
      specialize (Hcl eq_refl (ex_intro _ code (conj eq_refl Hc))).
      injection Hcl as -> -> ->.
      destruct (V13_broadcast_core s (V13.tasks (V13Sync.core s))
                  (V13.categories (V13Sync.core s)) (V13.logs (V13Sync.core s)) now presp)
        as (E1 & E2 & E3 & E4 & E5).
      unfold V13Sync.mirrored. rewrite E1, E2, E3, E4, E5. reflexivity.
    + apply V13_set_syncStatus_mirrored. destruct (V13.lastUpdateTs (V13Sync.core s) <? ts);
        [reflexivity | exact H].
  - intros now t c l code presp Hc. unfold V13Sync.pull_settle. rewrite Hc. simpl negb.
    cbv iota beta.
    destruct (V13_broadcast_core s t c l now presp) as (E1 & E2 & E3 & E4 & E5).
    unfold V13Sync.mirrored. cbn [V13Sync.core]. unfold V13Sync.set_syncStatus.
    cbn [V13.cache V13.tasks V13.categories V13.logs V13.lastUpdateTs].
    rewrite E1, E2, E3, E4, E5. split.
    + intros E. injection E as -> -> ->. reflexivity.
    + intros E. injection E as -> -> ->. reflexivity.
Qed.


(** ** part_004 and types.ts (second component): pending changes *)

(** part_004: every change marks the data as pending; while changes are
    pending no pull starts (so remote data never overwrites them), and the
    15 s tick pushes the current tasks under the next version instead,
    whenever the client is online and no push holds the lock. *)
Theorem P004_pending_changes_block_pull :
  (forall s t c l now,
     P004.hasPendingChanges (fst (P004.handleApplyChange_enter s t c l now)) = true /\
     P004.tasks (fst (P004.handleApplyChange_enter s t c l now)) = t) /\
  (forall s, P004.hasPendingChanges s = true ->
     (forall silent, P004.pullData_enter s silent = None) /\
     (forall silent now resp presp, P004.pullData s silent now resp presp = s) /\
     (P004.syncLock s = false -> P004.online s = true -> forall now,
        exists p, snd (P004Sync.tick_enter s now) = ReqPut p /\
                  pd_tasks p = P004.tasks s /\ version p = P004.currentVersion s + 1)).
Proof.
  split.
  - intros s t c l now. unfold P004.handleApplyChange_enter, P004.pushData_enter.
    simpl. destruct (P004.syncLock s || negb (P004.online s)); split; reflexivity.
  - intros s H.
    assert (He : forall silent, P004.pullData_enter s silent = None).
    { intros silent. unfold P004.pullData_enter. rewrite H, orb_true_r. reflexivity. }
    split; [exact He|]. split.
    + intros silent now resp presp. unfold P004.pullData. rewrite He. reflexivity.
    + intros Hl Ho now. unfold P004Sync.tick_enter, P004.pushData_enter.
      rewrite H, Hl, Ho. simpl. eexists. split; [reflexivity|]. split; reflexivity.
Qed.

(** part_004: a change made while the push of an earlier change is in
    flight is kept in memory but never sent: that push's success clears
    the pending flag, the remote document holds the earlier change only,
    and the next tick issues a pull instead of a push. *)
Theorem P004_edit_during_push_not_resent (s s1 : P004.State) (t t' : list Task)
    (c c' : list string) (l l' : list ActivityLog) (now1 now2 now3 now4 : Z)
    (p : ProjectData) (resp : Response)
    (Hstart : P004.handleApplyChange_enter s t c l now1 = (s1, Some p))
    (Hok : resp_ok resp = true) :
  snd (P004.handleApplyChange_enter s1 t' c' l' now2) = None /\
  let s3 := P004.pushData_settle (fst (P004.handleApplyChange_enter s1 t' c' l' now2))
              p now3 resp in
  P004.hasPendingChanges s3 = false /\ P004.tasks s3 = t' /\
  P004.remote s3 = Some p /\ pd_tasks p = t /\
  snd (P004Sync.tick_enter s3 now4) = ReqGet.
Proof.
  unfold P004.handleApplyChange_enter, P004.pushData_enter in *. simpl in Hstart |- *.
  destruct (P004.syncLock s) eqn:El; simpl in Hstart; [discriminate|].
  destruct (P004.online s) eqn:Eo; simpl in Hstart; [|discriminate].
  injection Hstart as <- <-. simpl.
  split; [reflexivity|].
  unfold P004.pushData_settle. rewrite Hok. simpl.
  split; [reflexivity|]. split; [reflexivity|]. split; [reflexivity|].
  split; [reflexivity|].
  unfold P004Sync.tick_enter, P004.pullData_enter. simpl. rewrite Eo. reflexivity.
Qed.

(** types.ts (second component): the same holds for handleDataChange,
    although a change made during a push does set pendingPush: the
    in-flight push's success resets it, so the later change stays out of
    the remote document and the 15 s pulse fetches instead of pushing. *)
Theorem V19_edit_during_push_not_resent (s s1 : V19.State) (t t' : list Task)
    (c c' : list string) (l l' : list ActivityLog) (now1 now2 now3 now4 : Z)
    (p : ProjectData) (resp : Response)
    (Hstart : V19.handleDataChange_enter s t c l now1 = (s1, Some p))
    (Hok : resp_ok resp = true) :
  snd (V19.handleDataChange_enter s1 t' c' l' now2) = None /\
  V19.pendingPush (fst (V19.handleDataChange_enter s1 t' c' l' now2)) = true /\
  let s3 := V19.pushToCloud_settle (fst (V19.handleDataChange_enter s1 t' c' l' now2))
              p now3 resp in
  V19.pendingPush s3 = false /\ V19.tasks s3 = t' /\
  V19.remote s3 = Some p /\ pd_tasks p = t /\
  snd (V19.syncPulse_enter s3 now4) = ReqGet.
Proof.
  unfold V19.handleDataChange_enter, V19.pushToCloud_enter in *. simpl in Hstart |- *.
  destruct (V19.isSyncing s) eqn:El; simpl in Hstart; [discriminate|].
  destruct (V19.online s) eqn:Eo; simpl in Hstart; [|discriminate].
  injection Hstart as <- <-. simpl. rewrite Eo. simpl.
  split; [reflexivity|]. split; [reflexivity|].
  unfold V19.pushToCloud_settle. rewrite Hok. simpl.
  split; [reflexivity|]. split; [reflexivity|]. split; [reflexivity|].
  split; [reflexivity|].
  unfold V19.syncPulse_enter, V19.fetchCloudData_enter. simpl. rewrite Eo. reflexivity.
Qed.

(** ** CSV export (App.tsx, second component) *)

Lemma count_lf_app a b : CSV.count_lf (a ++ b) = (CSV.count_lf a + CSV.count_lf b)%nat.
Proof. induction a as [|x a IH]; simpl; [reflexivity|]. rewrite IH. lia. Qed.

Lemma count_lf_replace_lf s : CSV.count_lf (CSV.replace_lf s) = 0%nat.
Proof.
  induction s as [|x s IH]; simpl; [reflexivity|]. rewrite IH.
  destruct (Ascii.eqb x "010"%char) eqn:E; [reflexivity|]. rewrite E. reflexivity.
Qed.

Lemma count_lf_quoted s : CSV.count_lf (CSV.quoted s) = CSV.count_lf s.
Proof. unfold CSV.quoted. rewrite !count_lf_app. simpl. lia. Qed.

Lemma count_lf_join sep l :
  CSV.count_lf (CSV.join sep l) =
  (list_sum (map CSV.count_lf l) + (length l - 1) * CSV.count_lf sep)%nat.
Proof.
  induction l as [|x [|y r] IH]; [reflexivity | simpl; lia|].
  change (CSV.join sep (x :: y :: r)) with (x ++ sep ++ CSV.join sep (y :: r))%string.
  rewrite !count_lf_app, IH. simpl. lia.
Qed.

Lemma count_lf_row t :
  CSV.count_lf (CSV.row t) =
  (CSV.count_lf (category t) + CSV.count_lf (title t) +
   CSV.count_lf (pick (deadline t) "") + CSV.count_lf (pick (assignee t) ""))%nat.
Proof.
  unfold CSV.row. rewrite count_lf_join. cbn [map length list_sum].
  rewrite !count_lf_quoted, count_lf_replace_lf.
  assert (Hs : CSV.count_lf (TaskStatus_str (status t)) = 0%nat) by (destruct (status t); reflexivity).
  rewrite Hs. simpl. lia.
Qed.

(** exportToCSV: the text holds one line for the header and one per
    task, plus one for each line feed inside a category, title, deadline
    or assignee (which are not escaped); line feeds in the notes are
    replaced by spaces and never split a record. *)
Theorem exportToCSV_line_count (ts : list Task) :
  CSV.count_lf (CSV.exportToCSV_text ts) =
    (length ts + list_sum (map (fun t => CSV.count_lf (category t) + CSV.count_lf (title t)
                                 + CSV.count_lf (pick (deadline t) "")
                                 + CSV.count_lf (pick (assignee t) "")) ts))%nat /\
  ((forall t, In t ts -> CSV.count_lf (category t) = 0%nat /\ CSV.count_lf (title t) = 0%nat /\
               CSV.count_lf (pick (deadline t) "") = 0%nat /\
               CSV.count_lf (pick (assignee t) "") = 0%nat) ->
   CSV.line_count (CSV.exportToCSV_text ts) = S (length ts)).
Proof.
  assert (Hc : CSV.count_lf (CSV.exportToCSV_text ts) =
    (length ts + list_sum (map (fun t => CSV.count_lf (category t) + CSV.count_lf (title t)
                                 + CSV.count_lf (pick (deadline t) "")
                                 + CSV.count_lf (pick (assignee t) "")) ts))%nat).
  { unfold CSV.exportToCSV_text. rewrite count_lf_join. simpl length. simpl map.
    change (CSV.count_lf (CSV.join "," CSV.headers)) with 0%nat.
    change (CSV.count_lf CSV.lf) with 1%nat. rewrite map_map, length_map.
    assert (E : map (fun x => CSV.count_lf (CSV.row x)) ts =
                map (fun t => CSV.count_lf (category t) + CSV.count_lf (title t)
                              + CSV.count_lf (pick (deadline t) "")
                              + CSV.count_lf (pick (assignee t) ""))%nat ts).
    { apply map_ext. intros t. apply count_lf_row. }
    rewrite E. simpl. lia. }
  split; [exact Hc|]. intros H. unfold CSV.line_count. rewrite Hc. f_equal.
  enough (list_sum (map (fun t => CSV.count_lf (category t) + CSV.count_lf (title t)
                                 + CSV.count_lf (pick (deadline t) "")
                                 + CSV.count_lf (pick (assignee t) ""))%nat ts) = 0%nat)
    by lia.
  clear Hc. induction ts as [|t ts IH]; [reflexivity|]. simpl.
  destruct (H t (or_introl eq_refl)) as (H1 & H2 & H3 & H4).
  rewrite H1, H2, H3, H4, IH; [reflexivity|]. intros u Hu. apply H. right. exact Hu.
Qed.

(** ** TaskListView *)

Lemma filter_filter_andb {A} (f g : A -> bool) l :
  filter g (filter f l) = filter (fun x => f x && g x) l.
Proof.
  induction l as [|x l IH]; [reflexivity|]. simpl.
  destruct (f x) eqn:Ef, (g x) eqn:Eg; simpl; rewrite ?Eg, ?IH; reflexivity.
Qed.

Lemma filter_orb_length {A} (f g : A -> bool) l :
  (forall x, In x l -> f x = true -> g x = false) ->
  length (filter (fun x => f x || g x) l) = (length (filter f l) + length (filter g l))%nat.
Proof.
  induction l as [|x l IH]; intros H; [reflexivity|].
  assert (IH' := IH (fun y Hy => H y (or_intror Hy))).
  cbn [filter]. destruct (f x) eqn:Ef; cbn [orb].
  - rewrite (H x (or_introl eq_refl) Ef). cbn [length]. rewrite IH'. reflexivity.
  - destruct (g x); cbn [length]; rewrite IH'; lia.
Qed.

Lemma task_rows_eq ts cats q :
  TaskListView.task_rows ts cats q =
  flat_map (fun c => filter (fun t => String.eqb (category t) c)
                       (TaskListView.filteredTasks ts q)) cats.
Proof.
  unfold TaskListView.task_rows, TaskListView.groups.
  induction cats as [|c cats IH]; [reflexivity|]. simpl. rewrite IH. reflexivity.
Qed.

Lemma str_includes_empty s : TaskListView.str_includes s "" = true.
Proof. destruct s; reflexivity. Qed.

(** TaskListView: a task is listed exactly when it matches the search
    term and its category is one of the displayed categories (a task of
    any other category is never shown); the empty search term matches
    every task; and with distinct category names the table has one row
    per matching task of a displayed category. *)
Theorem task_rows_spec (ts : list Task) (cats : list string) (q : string) :
  (forall t, In t (TaskListView.task_rows ts cats q) <->
             In t ts /\ TaskListView.matches q t = true /\ In (category t) cats) /\
  (forall t, TaskListView.matches "" t = true) /\
  (NoDup cats ->
   length (TaskListView.task_rows ts cats q) =
   length (filter (fun t => TaskListView.matches q t && includes cats (category t)) ts)).
Proof.
  split; [|split].
  - intros t. rewrite task_rows_eq, in_flat_map. unfold TaskListView.filteredTasks. split.
    + intros (c & Hc & Ht). apply filter_In in Ht as [Ht Hcat].
      apply filter_In in Ht as [Ht Hm]. apply String.eqb_eq in Hcat. subst c. auto.
    + intros (Ht & Hm & Hc). exists (category t). split; [exact Hc|].
      apply filter_In. split; [apply filter_In; auto | apply String.eqb_refl].
  - intros t. unfold TaskListView.matches. simpl Login.toLowerCase.
    rewrite str_includes_empty. reflexivity.
  - intros Hd. rewrite task_rows_eq, <- filter_filter_andb.
    unfold TaskListView.filteredTasks.
    generalize (filter (TaskListView.matches q) ts) as F. intros F.
    induction cats as [|c cats IH]; simpl.
    + induction F as [|x F IHF]; [reflexivity|]. exact IHF.
    + inversion Hd as [|? ? Hn Hd']. subst.
      rewrite length_app, IH by exact Hd'.
      unfold includes. simpl.
      rewrite (filter_orb_length (fun x => String.eqb (category x) c)
                 (fun x => existsb (String.eqb (category x)) cats)); [reflexivity|].
      intros x _ E. apply String.eqb_eq in E. rewrite E.
      destruct (existsb (String.eqb c) cats) eqn:E2; [|reflexivity].
      exfalso. apply Hn. apply includes_In. exact E2.
Qed.

(** ** types.ts (first component): the reference timestamp *)

(** types.ts handleDataUpdate: the edit is applied in memory at once;
    the reference timestamp moves to the push's timestamp only when the
    push succeeds.  After a failed push nothing records the unsent edit:
    the next 2xx pull carrying a snapshot newer than the last successful
    push replaces the edited tasks, categories and logs. *)
Theorem V11_failed_push_then_pull_drops_edit (s : V11Sync.State) (t : list Task)
    (c : list string) (l : list ActivityLog) (now : Z) (resp : Response)
    (Hidle : V11.syncBusy (V11Sync.core s) = false) :
  V11.tasks (V11Sync.core (V11Sync.handleDataUpdate s t c l now resp)) = t /\
  V11.syncBusy (V11Sync.core (V11Sync.handleDataUpdate s t c l now resp)) = false /\
  (resp_ok resp = true ->
     V11Sync.lastUpdateRef (V11Sync.handleDataUpdate s t c l now resp) = now) /\
  (resp_ok resp = false ->
     V11Sync.lastUpdateRef (V11Sync.handleDataUpdate s t c l now resp) = V11Sync.lastUpdateRef s /\
     V11.syncStatus (V11Sync.core (V11Sync.handleDataUpdate s t c l now resp)) = V11.Error /\
     forall m now' cl code rt rc rl ts presp, code_ok code = true -> V11Sync.lastUpdateRef s < ts ->
       let s2 := V11Sync.pull_settle (V11Sync.handleDataUpdate s t c l now resp) m now' cl
                   (SHttp code (SJson (rt, rc, rl, ts))) presp in
       V11.tasks (V11Sync.core s2) = rt /\ V11.categories (V11Sync.core s2) = rc /\
       V11.logs (V11Sync.core s2) = rl).
Proof.
  unfold V11Sync.handleDataUpdate, V11.handleDataUpdate, V11.broadcast_enter. simpl.
  rewrite Hidle. unfold V11Sync.broadcast_settle.
  destruct (resp_ok resp) eqn:Er; simpl.
  - split; [reflexivity|]. split; [reflexivity|]. split; [reflexivity|discriminate].
  - split; [reflexivity|]. split; [reflexivity|]. split; [discriminate|].
    intros _. split; [reflexivity|]. split; [reflexivity|].
    intros m now' cl code rt rc rl ts presp Hc Hts. unfold V11Sync.pull_settle. simpl.
    rewrite Hc. simpl. apply Z.ltb_lt in Hts. rewrite Hts. repeat split.
Qed.

(** ** part_004: the activity log *)

(** part_004 onUpdateTask: the in-memory log grows by one entry per
    update, with no bound, while a push it starts sends at most the 50
    newest entries. *)
Theorem P004_update_log_unbounded (s : P004.State) (tid : string) (u : TaskUpdate)
    (now : Z) (rid : string) :
  length (P004.logs (fst (P004.onUpdateTask s tid u now rid))) = S (length (P004.logs s)) /\
  (forall p, snd (P004.onUpdateTask s tid u now rid) = Some p ->
     (length (pd_logs p) <= 50)%nat /\
     pd_logs p = slice50 (P004.logs (fst (P004.onUpdateTask s tid u now rid)))).
Proof.
  unfold P004.onUpdateTask, P004.handleApplyChange_enter, P004.pushData_enter.
  destruct (P004.syncLock (P004.set_pending_data s _ _ _)
            || negb (P004.online (P004.set_pending_data s _ _ _))); cbn [fst snd].
  - split; [reflexivity|discriminate].
  - split; [reflexivity|]. intros p E. injection E as <-. cbv beta iota zeta.
    cbn [pd_logs]. split; [apply firstn_le_length | reflexivity].
Qed.

(** ** Witnesses of the hypotheses above *)

Lemma login_nickname_trimmed_witness :
  Login.handleSubmit "  Ana " "pw" = Some ("Ana", false) /\
  "Ana" <> "" /\ Login.trim "Ana" = "Ana".
Proof.
  assert (H : Login.handleSubmit "  Ana " "pw" = Some ("Ana", false)) by reflexivity.
  destruct (login_nickname_trimmed "  Ana " "pw" "Ana" false H) as (H1 & H2 & _).
  split; [exact H|]. split; [exact H1 | exact H2].
Defined.

Lemma V6_pull_adopts_only_newer_witness :
  code_ok 200 = true /\
  V6.syncStatus (V6Sync.pullFromCloud_settle v6_demo false 100
                   (SHttp 200 (SJson ([], ["PREP"], [], 50))) NetworkError) = V6.Synced /\
  V6.lastUpdate (V6Sync.pullFromCloud_settle v6_demo false 100
                   (SHttp 200 (SJson ([], ["PREP"], [], 50))) NetworkError) = 50 /\
  V6.tasks (V6Sync.pullFromCloud_settle v6_demo false 100
              (SHttp 200 (SJson ([], ["PREP"], [], 50))) NetworkError) = [].
Proof.
  destruct (V6_pull_adopts_only_newer v6_demo false 100 200 [] ["PREP"] [] 50 NetworkError
              eq_refl) as (H1 & H2 & _ & H4 & _).
  split; [reflexivity|]. split; [exact H1|]. split; [exact H2|].
  apply H4. vm_compute. reflexivity.
Defined.

Lemma P004_edit_during_push_not_resent_witness :
  P004.handleApplyChange_enter p004_idle [t1] ["PREP"] [] 10 =
    (fst (P004.handleApplyChange_enter p004_idle [t1] ["PREP"] [] 10),
     Some (mkProjectData [t1] ["PREP"] [] 4 "ana" 10)) /\
  P004.tasks (P004.pushData_settle
                (fst (P004.handleApplyChange_enter
                        (fst (P004.handleApplyChange_enter p004_idle [t1] ["PREP"] [] 10))
                        [] ["PREP"] [] 20))
                (mkProjectData [t1] ["PREP"] [] 4 "ana" 10) 30 (HttpResponse 200 BEmpty)) = [] /\
  snd (P004Sync.tick_enter
         (P004.pushData_settle
            (fst (P004.handleApplyChange_enter
                    (fst (P004.handleApplyChange_enter p004_idle [t1] ["PREP"] [] 10))
                    [] ["PREP"] [] 20))
            (mkProjectData [t1] ["PREP"] [] 4 "ana" 10) 30 (HttpResponse 200 BEmpty)) 40)
    = ReqGet.
Proof.
  assert (H : P004.handleApplyChange_enter p004_idle [t1] ["PREP"] [] 10 =
                (fst (P004.handleApplyChange_enter p004_idle [t1] ["PREP"] [] 10),
                 Some (mkProjectData [t1] ["PREP"] [] 4 "ana" 10))) by reflexivity.
  destruct (P004_edit_during_push_not_resent p004_idle _ [t1] [] ["PREP"] ["PREP"] [] []
              10 20 30 40 _ (HttpResponse 200 BEmpty) H eq_refl)
    as (_ & _ & H2 & _ & _ & H5).
  split; [exact H|]. split; [exact H2 | exact H5].
Defined.

Lemma V19_edit_during_push_not_resent_witness :
  V19.handleDataChange_enter v19_idle [t1] ["PREP"] [] 10 =
    (fst (V19.handleDataChange_enter v19_idle [t1] ["PREP"] [] 10),
     Some (mkProjectData [t1] ["PREP"] [] 4 "ana" 10)) /\
  V19.tasks (V19.pushToCloud_settle
               (fst (V19.handleDataChange_enter
                       (fst (V19.handleDataChange_enter v19_idle [t1] ["PREP"] [] 10))
                       [] ["PREP"] [] 20))
               (mkProjectData [t1] ["PREP"] [] 4 "ana" 10) 30 (HttpResponse 200 BEmpty)) = [] /\
  snd (V19.syncPulse_enter
         (V19.pushToCloud_settle
            (fst (V19.handleDataChange_enter
                    (fst (V19.handleDataChange_enter v19_idle [t1] ["PREP"] [] 10))
                    [] ["PREP"] [] 20))
            (mkProjectData [t1] ["PREP"] [] 4 "ana" 10) 30 (HttpResponse 200 BEmpty)) 40)
    = ReqGet.
Proof.
  assert (H : V19.handleDataChange_enter v19_idle [t1] ["PREP"] [] 10 =
                (fst (V19.handleDataChange_enter v19_idle [t1] ["PREP"] [] 10),
                 Some (mkProjectData [t1] ["PREP"] [] 4 "ana" 10))) by reflexivity.
  destruct (V19_edit_during_push_not_resent v19_idle _ [t1] [] ["PREP"] ["PREP"] [] []
              10 20 30 40 _ (HttpResponse 200 BEmpty) H eq_refl)
    as (_ & _ & _ & H3 & _ & _ & H6).
  split; [exact H|]. split; [exact H3 | exact H6].
Defined.

Lemma V11_failed_push_then_pull_drops_edit_witness :
  V11.syncBusy v11_demo = false /\
  V11.tasks (V11Sync.core
    (V11Sync.pull_settle (V11Sync.handleDataUpdate (V11Sync.mkS v11_demo 0) [] ["PREP"] [] 10
                            NetworkError)
       false 20 ([], [], []) (SHttp 200 (SJson ([t1], ["PREP"], [], 5))) NetworkError)) = [t1].
Proof.
  destruct (V11_failed_push_then_pull_drops_edit (V11Sync.mkS v11_demo 0) [] ["PREP"] [] 10
              NetworkError eq_refl) as (_ & _ & _ & H4).
  destruct (H4 eq_refl) as (_ & _ & H).
  split; [reflexivity|].
  exact (proj1 (H false 20 ([], [], []) 200 [t1] ["PREP"] [] 5 NetworkError eq_refl ltac:(simpl; lia))).
Defined.
